(** * Terraform metrics exporter: plan / log interpretation

    A shallow embedding of the exporter's two programs (the plan-only
    exporter built around [parseTerraformPlan], and the collector built
    around [collectMetrics]) together with the part of the Go standard
    library they call, followed by the properties of that code.

    Go strings are byte sequences: they are modelled as [string], whose
    characters are the 256 byte values.  Go's [int] is taken to be 64 bits
    wide and is modelled as [Z] with the wrap-around written out. *)

From Stdlib Require Import ZArith Ascii String List Bool Lia.
From Stdlib Require DecimalString DecimalN DecimalPos.
From stdpp Require Import base option list gmap strings.

Local Open Scope string_scope.
Local Open Scope Z_scope.

(** ** The Go library functions that the exporter calls *)

Module Go.

Definition byte_val (c : ascii) : Z := Z.of_nat (nat_of_ascii c).

(** [len(s)]: the number of bytes. *)
Definition len (s : string) : Z := Z.of_nat (String.length s).

Definition maxInt : Z := 2 ^ 63 - 1.
Definition minInt : Z := - 2 ^ 63.

(** Two's complement wrap-around of a 64-bit [int]. *)
Definition wrapInt (z : Z) : Z := (z + 2 ^ 63) mod 2 ^ 64 - 2 ^ 63.

(** [x++] on an [int]. *)
Definition incr (x : Z) : Z := wrapInt (x + 1).

(** *** package strings *)

(** [strings.Contains(s, substr)] *)
Fixpoint Contains (s substr : string) : bool :=
  String.prefix substr s
  || match s with
     | EmptyString => false
     | String _ t => Contains t substr
     end.

(** *** package unicode/utf8 *)

Definition RuneError : Z := 65533.

Definition is_cont (b : Z) : bool := (128 <=? b) && (b <=? 191).

(** [utf8.DecodeRuneInString] on the non-empty string whose first byte
    is [b0] and whose remaining bytes are [rest]: the rune and its
    width in bytes.  An invalid or truncated encoding gives
    [(RuneError, 1)]. *)
Definition DecodeRune (b0 : Z) (rest : string) : Z * nat :=
  if b0 <? 128 then (b0, 1%nat)
  else if (b0 <? 194) || (244 <? b0) then (RuneError, 1%nat)
  else
    let sz : nat := if b0 <? 224 then 2%nat else if b0 <? 240 then 3%nat else 4%nat in
    let lo := if b0 =? 224 then 160 else if b0 =? 240 then 144 else 128 in
    let hi := if b0 =? 237 then 159 else if b0 =? 244 then 143 else 191 in
    match rest with
    | EmptyString => (RuneError, 1%nat)
    | String c1 rest1 =>
      let b1 := byte_val c1 in
      if (b1 <? lo) || (hi <? b1) then (RuneError, 1%nat)
      else match sz with
      | 2%nat => (Z.lor (Z.shiftl (Z.land b0 31) 6) (Z.land b1 63), 2%nat)
      | _ =>
        match rest1 with
        | EmptyString => (RuneError, 1%nat)
        | String c2 rest2 =>
          let b2 := byte_val c2 in
          if negb (is_cont b2) then (RuneError, 1%nat)
          else match sz with
          | 3%nat =>
            (Z.lor (Z.shiftl (Z.land b0 15) 12)
               (Z.lor (Z.shiftl (Z.land b1 63) 6) (Z.land b2 63)), 3%nat)
          | _ =>
            match rest2 with
            | EmptyString => (RuneError, 1%nat)
            | String c3 _ =>
              let b3 := byte_val c3 in
              if negb (is_cont b3) then (RuneError, 1%nat)
              else
                (Z.lor (Z.shiftl (Z.land b0 7) 18)
                   (Z.lor (Z.shiftl (Z.land b1 63) 12)
                      (Z.lor (Z.shiftl (Z.land b2 63) 6) (Z.land b3 63))), 4%nat)
            end
          end
        end
      end
    end.

(** The runes of a string in order, each with the bytes it was decoded
    from, as a [for i, r := range s] loop visits them. *)
Fixpoint runes (s : string) : list (Z * string) :=
  match s with
  | EmptyString => []
  | String c0 rest =>
    let '(r, w) := DecodeRune (byte_val c0) rest in
    match w, rest with
    | 2%nat, String c1 t1 =>
        (r, String c0 (String c1 EmptyString)) :: runes t1
    | 3%nat, String c1 (String c2 t2) =>
        (r, String c0 (String c1 (String c2 EmptyString))) :: runes t2
    | 4%nat, String c1 (String c2 (String c3 t3)) =>
        (r, String c0 (String c1 (String c2 (String c3 EmptyString)))) :: runes t3
    | _, _ => (r, String c0 EmptyString) :: runes rest
    end
  end.

(** *** package unicode *)

(** [unicode.IsSpace]: the Latin-1 spaces and the code points with the
    White_Space property. *)
Definition IsSpace (r : Z) : bool :=
  ((9 <=? r) && (r <=? 13)) || (r =? 32) || (r =? 133) || (r =? 160)
  || (r =? 5760) || ((8192 <=? r) && (r <=? 8202))
  || (r =? 8232) || (r =? 8233) || (r =? 8239) || (r =? 8287) || (r =? 12288).

Definition space_rune (rb : Z * string) : bool := IsSpace (fst rb).

Definition bytes_of (rs : list (Z * string)) : string :=
  fold_right (fun rb acc => snd rb ++ acc) EmptyString rs.

(** *** package strings, continued *)

(** The loop of [strings.FieldsFunc(s, unicode.IsSpace)] over the runes
    of [s]; [cur] holds the bytes of the field being read (empty when
    no field has started). *)
Fixpoint fieldsLoop (rs : list (Z * string)) (cur : string) : list string :=
  match rs with
  | [] => if String.eqb cur "" then [] else [cur]
  | (r, b) :: rest =>
    if IsSpace r then
      if String.eqb cur "" then fieldsLoop rest "" else cur :: fieldsLoop rest ""
    else fieldsLoop rest (cur ++ b)
  end.

(** [strings.Fields(s)] *)
Definition Fields (s : string) : list string := fieldsLoop (runes s) "".

Fixpoint dropSpaces (rs : list (Z * string)) : list (Z * string) :=
  match rs with
  | rb :: rest => if space_rune rb then dropSpaces rest else rs
  | [] => []
  end.

(** [strings.TrimSpace(s)]: [s] without its leading and trailing white
    space runes. *)
Definition TrimSpace (s : string) : string :=
  bytes_of (rev (dropSpaces (rev (dropSpaces (runes s))))).

(** [strings.Split(s, sep)] for a non-empty [sep]: walk [s]; at a
    position where [sep] starts, close the current field and skip the
    separator ([skip] counts its bytes still to pass over). *)
Fixpoint genSplit (sep : string) (skip : nat) (s : string) : list string :=
  match s with
  | EmptyString => [EmptyString]
  | String c t =>
    match skip with
    | S k => genSplit sep k t
    | O =>
      if String.prefix sep s
      then EmptyString :: genSplit sep (String.length sep - 1) t
      else match genSplit sep 0 t with
           | f :: fs => String c f :: fs
           | [] => [String c EmptyString]
           end
    end
  end.

(** With an empty separator [strings.Split] explodes [s] into its UTF-8
    sequences, an invalid byte becoming the encoding of U+FFFD. *)
Definition replacement : string :=
  String (ascii_of_nat 239) (String (ascii_of_nat 191) (String (ascii_of_nat 189) EmptyString)).

Definition explode (s : string) : list string :=
  map (fun rb : Z * string => if fst rb =? RuneError then replacement else snd rb) (runes s).

Definition Split (s sep : string) : list string :=
  if String.eqb sep "" then explode s else genSplit sep 0 s.

(** *** package strconv *)

Inductive NumError := ErrSyntax | ErrRange.

Definition maxUint64 : Z := 2 ^ 64 - 1.

(** The digit loop of [strconv.ParseUint(s, 10, 64)]; [n] is the value
    read so far.  Overflow is reported at the digit where it happens,
    before the rest of the string is looked at. *)
Fixpoint parseUintLoop (s : string) (n : Z) : Z * option NumError :=
  match s with
  | EmptyString => (n, None)
  | String c t =>
    let b := byte_val c in
    if (48 <=? b) && (b <=? 57) then
      let d := b - 48 in
      if n >=? maxUint64 / 10 + 1 then (maxUint64, Some ErrRange)
      else
        let n10 := n * 10 in
        let n1 := (n10 + d) mod 2 ^ 64 in
        if (n1 <? n10) || (maxUint64 <? n1) then (maxUint64, Some ErrRange)
        else parseUintLoop t n1
    else (0, Some ErrSyntax)
  end.

Definition ParseUint (s : string) : Z * option NumError :=
  if String.eqb s "" then (0, Some ErrSyntax) else parseUintLoop s 0.

(** [strconv.ParseInt(s, 10, 64)] *)
Definition ParseInt (s : string) : Z * option NumError :=
  match s with
  | EmptyString => (0, Some ErrSyntax)
  | String c t =>
    let neg := Ascii.eqb c "-" in
    let digits := if Ascii.eqb c "+" || neg then t else s in
    match ParseUint digits with
    | (_, Some ErrSyntax) => (0, Some ErrSyntax)
    | (un, _) =>
      let cutoff := 2 ^ 63 in
      if negb neg && (un >=? cutoff) then (cutoff - 1, Some ErrRange)
      else if neg && (un >? cutoff) then (- cutoff, Some ErrRange)
      else (wrapInt (if neg then - wrapInt un else wrapInt un), None)
    end
  end.

(** The fast path of [strconv.Atoi], taken for strings of 1 to 18
    bytes: the digits after an optional sign. *)
Fixpoint atoiLoop (s : string) (n : Z) : option Z :=
  match s with
  | EmptyString => Some n
  | String c t =>
    let ch := (byte_val c - 48) mod 256 in
    if ch >? 9 then None else atoiLoop t (n * 10 + ch)
  end.

(** [strconv.Atoi(s)] *)
Definition Atoi (s : string) : Z * option NumError :=
  let sLen := len s in
  if (0 <? sLen) && (sLen <? 19) then
    match s with
    | EmptyString => (0, Some ErrSyntax)
    | String c t =>
      let signed := Ascii.eqb c "-" || Ascii.eqb c "+" in
      let digits := if signed then t else s in
      if signed && (len digits <? 1) then (0, Some ErrSyntax)
      else match atoiLoop digits 0 with
           | None => (0, Some ErrSyntax)
           | Some n => (if Ascii.eqb c "-" then - n else n, None)
           end
    end
  else ParseInt s.

(** *** package bufio *)

(** [bufio.MaxScanTokenSize]: a scanner's buffer grows to this size and
    no further. *)
Definition MaxScanTokenSize : Z := 64 * 1024.

Fixpoint lastByte (s : string) : option ascii :=
  match s with
  | EmptyString => None
  | String c EmptyString => Some c
  | String _ t => lastByte t
  end.

Fixpoint dropLast (s : string) : string :=
  match s with
  | EmptyString => EmptyString
  | String _ EmptyString => EmptyString
  | String c t => String c (dropLast t)
  end.

(** [dropCR] of bufio: a line loses one trailing carriage return. *)
Definition dropCR (s : string) : string :=
  match lastByte s with
  | Some c => if Ascii.eqb c (ascii_of_nat 13) then dropLast s else s
  | None => s
  end.

Definition newline : string := String (ascii_of_nat 10) EmptyString.

(** The tokens a [bufio.Scanner] with the default [ScanLines] split
    delivers, from the newline-separated pieces of the input.  Every
    piece but the last was ended by a newline; the last is what follows
    the final newline and is a line only when it is not empty.  A piece
    that does not fit in the buffer together with its newline ends the
    scan: [Scan] returns false there and for good. *)
Fixpoint scanTokens (pieces : list string) : list string :=
  match pieces with
  | [] => []
  | [final] =>
    if String.eqb final "" then []
    else if MaxScanTokenSize <=? len final then []
    else [dropCR final]
  | piece :: rest =>
    if MaxScanTokenSize <=? len piece then []
    else dropCR piece :: scanTokens rest
  end.

(** The successive values of [scanner.Text()] in a
    [for scanner.Scan()] loop over a file with contents [data]. *)
Definition scanLines (data : string) : list string :=
  scanTokens (Split data newline).

End Go.

(** ** What the two programs share *)

(** Gauge values.  The exporter produces a [float64] in two ways only: by
    converting an [int], and from [time.Duration.Seconds].  A value is
    represented by the integer it was converted from; floating-point
    rounding is not modelled. *)
Inductive float64 : Type :=
  | ofInt (n : Z)
  | ofSeconds (nanoseconds : Z).

(** Go's [error] values, as far as the programs meet them. *)
Inductive error : Type :=
  | PathError (Op Path Err : string)
  | DecodeError (msg : string)
  | PushError (msg : string).

Definition Error (e : error) : string :=
  match e with
  | PathError op path err => op ++ " " ++ path ++ ": " ++ err
  | DecodeError msg => msg
  | PushError msg => msg
  end.

(** A path of the file system either holds a file that reads in full, or
    one that cannot be opened; a path the map does not know is absent. *)
Inductive File : Type :=
  | Contents (data : string)
  | Unreadable (reason : string).

(** The surroundings of one run: environment variables, files, what the
    wall clock gives when it is asked, and what the push gateway answers.
    [elapsed] is the [Duration] between the two clock readings of the
    plan-only exporter; [sinceUnix sec] is the [Duration]
    [time.Since(time.Unix(sec, 0))] and [nowUnix] is [time.Now().Unix()]
    at the moment the collector asks.  Durations are in nanoseconds. *)
Record World : Type := {
  environ : gmap string string;
  files : gmap string File;
  elapsed : Z;
  sinceUnix : Z -> Z;
  nowUnix : Z;
  gateway : option error
}.

(** [os.Getenv] *)
Definition Getenv (w : World) (key : string) : string :=
  default "" (environ w !! key).

(** [os.ReadFile]; [os.Open] followed by reading fails and succeeds on
    the same paths. *)
Definition ReadFile (w : World) (path : string) : error + string :=
  match files w !! path with
  | Some (Contents data) => inr data
  | Some (Unreadable reason) => inl (PathError "open" path reason)
  | None => inl (PathError "open" path "no such file or directory")
  end.

Definition Open := ReadFile.

(** [fmt.Println(msg, err)] writes this line. *)
Definition Println2 (msg : string) (e : error) : string := msg ++ " " ++ Error e.

Record Change_ : Type := { Actions : list string }.

Record ResourceChange : Type := {
  Type_ : string;
  Change : Change_
}.

(** [contains], which both programs define with the same body. *)
Fixpoint contains (slice : list string) (val : string) : bool :=
  match slice with
  | [] => false
  | item :: rest => if String.eqb item val then true else contains rest val
  end.

(** A gauge as handed to the push gateway. *)
Record Gauge : Type := {
  Name : string;
  Help : string;
  Value : float64
}.

(** ** The plan-only exporter *)

Module PlanExporter.

Record PlanJSON : Type := {
  ResourceChanges : list ResourceChange
}.

(** The package-level gauges; each holds 0 until it is set. *)
Record Gauges : Type := {
  resourcesTotal : float64;
  resourcesAdded : float64;
  resourcesChanged : float64;
  resourcesDestroyed : float64;
  executionDuration : float64;
  executionSuccess : float64;
  driftDetected : float64
}.

Definition initial : Gauges :=
  {| resourcesTotal := ofInt 0; resourcesAdded := ofInt 0;
     resourcesChanged := ofInt 0; resourcesDestroyed := ofInt 0;
     executionDuration := ofInt 0; executionSuccess := ofInt 0;
     driftDetected := ofInt 0 |}.

Definition min (a b : Z) : Z := if a <? b then a else b.

(** The local counters of [parseTerraformPlan]. *)
Record Counters : Type := {
  total : Z; added : Z; changed : Z; destroyed : Z; drift : Z
}.

(** The body of the loop over [plan.ResourceChanges]. *)
Definition tally (c : Counters) (rc : ResourceChange) : Counters :=
  let actions := Actions (Change rc) in
  {| total := Go.incr (total c);
     added := if contains actions "create" then Go.incr (added c) else added c;
     changed := if contains actions "update" then Go.incr (changed c) else changed c;
     destroyed := if contains actions "delete" then Go.incr (destroyed c) else destroyed c;
     drift :=
       if (Z.of_nat (length actions) =? 1)
          && bool_decide (actions !! 0%nat = Some "update")
       then Go.incr (drift c) else drift c |}.

Definition count (rcs : list ResourceChange) : Counters :=
  fold_left tally rcs {| total := 0; added := 0; changed := 0; destroyed := 0; drift := 0 |}.

Section WithDecoder.

(** [json.Unmarshal(data, &plan)] for a zero [plan]: the value it
    leaves in [plan], and its error. *)
Variable Unmarshal : string -> PlanJSON * option error.

Definition parseTerraformPlan (w : World) (path : string) (g : Gauges)
  : Gauges * option error :=
  match ReadFile w path with
  | inl err => (g, Some err)
  | inr data =>
    match Unmarshal data with
    | (_, Some err) => (g, Some err)
    | (plan, None) =>
      let c := count (ResourceChanges plan) in
      ({| resourcesTotal := ofInt (total c);
          resourcesAdded := ofInt (added c);
          resourcesChanged := ofInt (changed c);
          resourcesDestroyed := ofInt (destroyed c);
          executionDuration := executionDuration g;
          executionSuccess := executionSuccess g;
          driftDetected := ofInt (min 1 (drift c)) |}, None)
    end
  end.

(** What [main] leaves behind: the lines printed, the gauges as
    pushed, the push target, and the exit code. *)
Record Run : Type := {
  stdout : list string;
  pushURL : string;
  pushJob : string;
  pushGrouping : list (string * string);
  pushed : list Gauge;
  exitCode : Z
}.

Definition collectors (g : Gauges) : list Gauge :=
  [ {| Name := "terraform_resources_total"; Help := "Total number of resource changes";
       Value := resourcesTotal g |};
    {| Name := "terraform_resources_added"; Help := "Resources to be created";
       Value := resourcesAdded g |};
    {| Name := "terraform_resources_changed"; Help := "Resources to be updated";
       Value := resourcesChanged g |};
    {| Name := "terraform_resources_destroyed"; Help := "Resources to be deleted";
       Value := resourcesDestroyed g |};
    {| Name := "terraform_drift_detected"; Help := "1 if drift detected, 0 otherwise";
       Value := driftDetected g |};
    {| Name := "terraform_execution_duration_seconds"; Help := "Duration of terraform operation";
       Value := executionDuration g |};
    {| Name := "terraform_execution_success"; Help := "1 if success, 0 if failed";
       Value := executionSuccess g |} ].

Definition main (w : World) : Run :=
  let logPath := Getenv w "TERRAFORM_PLAN_PATH" in
  let pushIP := Getenv w "PUSHGATEWAY_URL" in
  let job := Getenv w "PUSHGATEWAY_JOB" in
  let instance := Getenv w "GITHUB_RUN_ID" in
  let '(g, err) := parseTerraformPlan w logPath initial in
  let out :=
    match err with
    | Some e => [Println2 "Error parsing plan:" e]
    | None => []
    end in
  let success := match err with Some _ => ofInt 0 | None => ofInt 1 end in
  let g :=
    {| resourcesTotal := resourcesTotal g; resourcesAdded := resourcesAdded g;
       resourcesChanged := resourcesChanged g;
       resourcesDestroyed := resourcesDestroyed g;
       executionDuration := ofSeconds (elapsed w);
       executionSuccess := success;
       driftDetected := driftDetected g |} in
  let url := "http://" ++ pushIP ++ ":9091" in
  match gateway w with
  | Some e =>
    {| stdout := out ++ [Println2 "Push failed:" e]; pushURL := url; pushJob := job;
       pushGrouping := [("instance", instance)]; pushed := collectors g;
       exitCode := 1 |}
  | None =>
    {| stdout := out; pushURL := url; pushJob := job;
       pushGrouping := [("instance", instance)]; pushed := collectors g;
       exitCode := 0 |}
  end.

End WithDecoder.

End PlanExporter.

(** ** The collector *)

Module Collector.

Record PlanJSON : Type := {
  Timestamp : string;
  ResourceChanges : list ResourceChange
}.

(** The four named results of [parseLogStats]. *)
Record Stats : Type := {
  added : Z; changed : Z; destroyed : Z; imported : Z
}.

Definition noStats : Stats := {| added := 0; changed := 0; destroyed := 0; imported := 0 |}.

(** A computation that may end in a run-time panic ([None]), as an
    index expression out of range does. *)
Definition forEach {A S : Type} (body : S -> A -> option S)
  : S -> list A -> option S :=
  fix loop (s : S) (l : list A) : option S :=
    match l with
    | [] => Some s
    | x :: rest => s' ← body s x; loop s' rest
    end.

(** The body of the loop over the comma-separated [stats]. *)
Definition statStep (st : Stats) (stat : string) : option Stats :=
  let parts := Go.Fields (Go.TrimSpace stat) in
  if Z.of_nat (length parts) <? 2 then Some st
  else
    p0 ← parts !! 0%nat;
    let '(count, _) := Go.Atoi p0 in
    p1 ← parts !! 1%nat;
    Some (if String.eqb p1 "added" then
            {| added := count; changed := changed st;
               destroyed := destroyed st; imported := imported st |}
          else if String.eqb p1 "changed" then
            {| added := added st; changed := count;
               destroyed := destroyed st; imported := imported st |}
          else if String.eqb p1 "destroyed" then
            {| added := added st; changed := changed st;
               destroyed := count; imported := imported st |}
          else if String.eqb p1 "imported" then
            {| added := added st; changed := changed st;
               destroyed := destroyed st; imported := count |}
          else st).

(** The body of the loop over the scanned lines. *)
Definition lineStep (st : Stats) (line : string) : option Stats :=
  if Go.Contains line "Apply complete!" then
    let fields := Go.Split line ":" in
    if Z.of_nat (length fields) <? 2 then Some st
    else
      clause ← fields !! 1%nat;
      forEach statStep st (Go.Split clause ",")
  else Some st.

Definition parseLogStats (w : World) (path : string) : option Stats :=
  match Open w path with
  | inl _ => Some noStats
  | inr data => forEach lineStep noStats (Go.scanLines data)
  end.

Definition noChanges : string :=
  "No changes. Your infrastructure still matches the configuration.".

(** [detectDrift]: its result and the lines it prints. *)
Definition detectDrift (w : World) (logPath : string) : float64 * list string :=
  match ReadFile w logPath with
  | inl err => (ofInt 0, [Println2 "Error reading refresh log:" err])
  | inr logContent =>
    if Go.Contains logContent noChanges then (ofInt 0, [])
    else if Go.Contains logContent "Refreshing state..." then (ofInt 1, [])
    else (ofInt 0, [])
  end.

(** The second error marker starts with U+2502, the box-drawing
    vertical bar. *)
Definition boxError : string := "│ Error".

Fixpoint noErrorLine (lines : list string) : bool :=
  match lines with
  | [] => true
  | line :: rest =>
    if Go.Contains line "Error:" || Go.Contains line boxError then false
    else noErrorLine rest
  end.

Definition isTerraformRunSuccessful (w : World) (logPath : string) : bool :=
  match Open w logPath with
  | inl _ => false
  | inr data => noErrorLine (Go.scanLines data)
  end.

(** The map [metrics] of [collectMetrics], with the history of the
    assignments [metrics[name] = g] made to it.  The history is not
    program state: it is kept to say which names were assigned, and how
    often. *)
Record Metrics : Type := {
  gauges : gmap string Gauge;
  assigned : list string
}.

Definition noMetrics : Metrics := {| gauges := ∅; assigned := [] |}.

Definition makeGauge (name help : string) (value : float64) (metrics : Metrics)
  : Metrics :=
  let g := {| Name := name; Help := help; Value := value |} in
  {| gauges := <[name := g]> (gauges metrics);
     assigned := assigned metrics ++ [name] |}.

(** The counters of the tally loop in [collectMetrics]. *)
Record Tally : Type := {
  total : Z; toAdd : Z; toChange : Z; toDestroy : Z; toImport : Z
}.

Definition tally (t : Tally) (rc : ResourceChange) : Tally :=
  let actions := Actions (Change rc) in
  {| total := Go.incr (total t);
     toAdd := if contains actions "create" then Go.incr (toAdd t) else toAdd t;
     toChange := if contains actions "update" then Go.incr (toChange t) else toChange t;
     toDestroy := if contains actions "delete" then Go.incr (toDestroy t) else toDestroy t;
     toImport := if contains actions "import" then Go.incr (toImport t) else toImport t |}.

Definition count (rcs : list ResourceChange) : Tally :=
  fold_left tally rcs
    {| total := 0; toAdd := 0; toChange := 0; toDestroy := 0; toImport := 0 |}.

(** What [collectMetrics] does: the lines printed, the request handed
    to the pusher, and the error it returns. *)
Record Run : Type := {
  stdout : list string;
  pushURL : string;
  pushJob : string;
  pushGrouping : list (string * string);
  metrics : Metrics;
  returned : option error
}.

Section WithLibraries.

(** [json.Unmarshal(data, &plan)] for a zero [plan]: the value it
    leaves in [plan] (the zero value when it stores nothing), and its
    error. *)
Variable Unmarshal : string -> PlanJSON * option error.

(** [time.Parse(time.RFC3339, s)] followed by [Unix()]. *)
Variable ParseRFC3339 : string -> option Z.

Definition zeroPlan : PlanJSON := {| Timestamp := ""; ResourceChanges := [] |}.

Definition collectMetrics (w : World) : option Run :=
  let planPath := Getenv w "TERRAFORM_PLAN_PATH" in
  let applyLogPath := Getenv w "TERRAFORM_APPLY_LOG_PATH" in
  let refreshLogPath := Getenv w "TERRAFORM_REFRESH_LOG_PATH" in
  let startTimeEnv := Getenv w "TERRAFORM_START_TIME" in
  let job := Getenv w "PUSHGATEWAY_JOB" in
  let instance := Getenv w "GITHUB_RUN_ID" in
  let workflowName := Getenv w "GITHUB_WORKFLOW" in
  let commitMsg := Getenv w "COMMIT_MESSAGE" in
  let startUnix := fst (Go.ParseInt startTimeEnv) in
  let execDuration := ofSeconds (sinceUnix w startUnix) in
  let timestamp := ofInt (nowUnix w) in
  let '(drift, out) := detectDrift w refreshLogPath in
  let metrics := noMetrics in
  let plan :=
    match ReadFile w planPath with
    | inr planFile => fst (Unmarshal planFile)
    | inl _ => zeroPlan
    end in
  let t := count (ResourceChanges plan) in
  let timestamp :=
    if negb (String.eqb (Timestamp plan) "") then
      match ParseRFC3339 (Timestamp plan) with
      | Some unix => ofInt unix
      | None => timestamp
      end
    else timestamp in
  let metrics := makeGauge "terraform_execution_duration_seconds"
                   "Time taken for execution" execDuration metrics in
  let metrics := makeGauge "terraform_timestamp" "Unix timestamp of run" timestamp metrics in
  let metrics := makeGauge "terraform_drift_detected" "Drift found during refresh"
                   drift metrics in
  let metrics := makeGauge "terraform_resources_total" "Total planned resource changes"
                   (ofInt (total t)) metrics in
  let metrics := makeGauge "terraform_to_add" "Resources planned to be added"
                   (ofInt (toAdd t)) metrics in
  let metrics := makeGauge "terraform_to_change" "Resources planned to be changed"
                   (ofInt (toChange t)) metrics in
  let metrics := makeGauge "terraform_to_destroy" "Resources planned to be destroyed"
                   (ofInt (toDestroy t)) metrics in
  let metrics := makeGauge "terraform_to_import" "Resources planned to be imported"
                   (ofInt (toImport t)) metrics in
  metrics ←
    (if negb (String.eqb applyLogPath "") then
       st ← parseLogStats w applyLogPath;
       let metrics := makeGauge "terraform_added" "Resources actually added"
                        (ofInt (added st)) metrics in
       let metrics := makeGauge "terraform_changed" "Resources actually changed"
                        (ofInt (changed st)) metrics in
       let metrics := makeGauge "terraform_destroyed" "Resources actually destroyed"
                        (ofInt (destroyed st)) metrics in
       Some (makeGauge "terraform_imported" "Resources actually imported"
               (ofInt (imported st)) metrics)
     else Some metrics);
  let resultLogPath :=
    if negb (String.eqb applyLogPath "") then applyLogPath else planPath in
  let metrics :=
    if isTerraformRunSuccessful w resultLogPath
    then makeGauge "terraform_result" "1=success, 0=failure" (ofInt 1) metrics
    else makeGauge "terraform_result" "1=success, 0=failure" (ofInt 0) metrics in
  let pushURL := "http://" ++ Getenv w "PUSHGATEWAY_URL" ++ ":9091" in
  Some {| stdout := out;
          pushURL := pushURL;
          pushJob := job;
          pushGrouping := [("instance", instance); ("commit_message", commitMsg);
                           ("workflow_name", workflowName); ("job", job)];
          metrics := metrics;
          returned := gateway w |}.

(** [main]: the lines printed in all and the exit code ([None] when
    the run panics). *)
Definition main (w : World) : option (list string * Z) :=
  run ← collectMetrics w;
  match returned run with
  | Some err => Some ((stdout run ++ [Println2 "Error pushing metrics:" err])%list, 1)
  | None => Some (stdout run, 0)
  end.

End WithLibraries.

End Collector.

(** ** The summarizer *)

Module Summarizer.

(** The errors [QueryGemini] returns, one for each [fmt.Errorf] of the
    function, with the error it wraps or prints. *)
Inductive failure : Type :=
  | KeyNotSet
  | ClientFailed (cause : string)
  | ReadFailed (path : string) (cause : error)
  | GenerateFailed (cause : string)
  | NoContent
  | WriteFailed (cause : string).

Definition message (f : failure) : string :=
  match f with
  | KeyNotSet => "GOOGLE_API_KEY is not set"
  | ClientFailed cause => "failed to create client: " ++ cause
  | ReadFailed path cause => "reading log file " ++ path ++ ": " ++ Error cause
  | GenerateFailed cause => "gemini generate content failed: " ++ cause
  | NoContent => "no content returned from Gemini"
  | WriteFailed cause => "writing summary to file: " ++ cause
  end.

(** The map literal [logs], entry by entry. *)
Definition logs (runID : string) : list (string * string) :=
  [("refresh", "terraform-refresh-" ++ runID ++ ".log");
   ("plan", "terraform-plan-" ++ runID ++ ".log");
   ("apply", "terraform-apply-" ++ runID ++ ".log")].

Definition upperByte (c : ascii) : ascii :=
  let b := Go.byte_val c in
  if (97 <=? b) && (b <=? 122) then ascii_of_nat (Z.to_nat (b - 32)) else c.

(** [strings.ToUpper] on a string of ASCII bytes, as the three labels
    are. *)
Fixpoint ToUpper (s : string) : string :=
  match s with
  | EmptyString => EmptyString
  | String c t => String (upperByte c) (ToUpper t)
  end.

Definition header : string :=
  "Here are three (two if apply is not present) logs from a Terraform execution:"
  ++ Go.newline ++ "---" ++ Go.newline.

Definition instructions : string :=
  "Generate a human-readable summary of:" ++ Go.newline
  ++ "1. What was changed (added, updated, deleted)?" ++ Go.newline
  ++ "2. Any errors or warnings?" ++ Go.newline
  ++ "3. Overall outcome (success, failed, partial)?" ++ Go.newline
  ++ "4. Highlight risky or unusual changes." ++ Go.newline
  ++ "Keep it under 250 words.".

(** What the loop writes to the builder for one log that was read. *)
Definition section (label data : string) : string :=
  "📄 " ++ ToUpper label ++ " Log:" ++ Go.newline ++ data ++ Go.newline ++ Go.newline.

(** The line the loop prints for a log that is not there. *)
Definition warning (path : string) : string :=
  "Warning: Log file " ++ path ++ " not found. Skipping.".

(** The state of the loop over [logs]: the error that ended it, if one
    did, the contents of the builder and the lines printed. *)
Record Gathered : Type := {
  failed : option failure;
  prompt : string;
  printed : list string
}.

(** What one call leaves behind: the lines printed, the request made to
    the model (its name and the prompt), the file written (its path and
    contents), and the error returned. *)
Record Run : Type := {
  stdout : list string;
  request : option (string * string);
  written : option (string * string);
  returned : option failure
}.

Section WithService.

(** [filepath.Join] of two elements. *)
Variable Join : string -> string -> string.

(** The order in which [range] visits the entries of a map. *)
Variable visit : list (string * string) -> list (string * string).

(** [genai.NewClient] for an API key: its error, as text. *)
Variable NewClient : string -> option string.

(** [client.Models.GenerateContent] for a model and a prompt, followed by
    [resp.Text()]: the error as text, or the text of the answer. *)
Variable GenerateContent : string -> string -> string + string.

(** [os.WriteFile] for a path and contents: its error, as text. *)
Variable WriteFile : string -> string -> option string.

(** The loop over the logs.  A path the file system does not know makes
    [os.Stat] fail with an error that [os.IsNotExist] accepts. *)
Fixpoint gather (w : World) (entries : list (string * string))
    (builder : string) (out : list string) : Gathered :=
  match entries with
  | [] => {| failed := None; prompt := builder; printed := out |}
  | (label, name) :: rest =>
    let path := Join "exporter" name in
    match files w !! path with
    | None => gather w rest builder (out ++ [warning path])
    | Some _ =>
      match ReadFile w path with
      | inl err => {| failed := Some (ReadFailed path err); prompt := builder; printed := out |}
      | inr data => gather w rest (builder ++ section label data) out
      end
    end
  end.

Definition QueryGemini (w : World) (runID : string) : Run :=
  let apiKey := Getenv w "GOOGLE_API_KEY" in
  if String.eqb apiKey "" then
    {| stdout := []; request := None; written := None; returned := Some KeyNotSet |}
  else
    match NewClient apiKey with
    | Some err =>
      {| stdout := []; request := None; written := None;
         returned := Some (ClientFailed err) |}
    | None =>
      let g := gather w (visit (logs runID)) header [] in
      match failed g with
      | Some f =>
        {| stdout := printed g; request := None; written := None; returned := Some f |}
      | None =>
        let text := prompt g ++ instructions in
        let asked := Some ("gemini-2.5-flash", text) in
        match GenerateContent "gemini-2.5-flash" text with
        | inl err =>
          {| stdout := printed g; request := asked; written := None;
             returned := Some (GenerateFailed err) |}
        | inr answer =>
          if Go.len answer =? 0 then
            {| stdout := printed g; request := asked; written := None;
               returned := Some NoContent |}
          else
            let outputPath :=
              Join "exporter" ("terraform-gemini-summary-" ++ runID ++ ".log") in
            match WriteFile outputPath answer with
            | Some err =>
              {| stdout := printed g; request := asked; written := None;
                 returned := Some (WriteFailed err) |}
            | None =>
              {| stdout := printed g ++ ["Gemini summary written to " ++ outputPath];
                 request := asked; written := Some (outputPath, answer);
                 returned := None |}
            end
        end
      end
    end.

End WithService.

End Summarizer.


(** ** Vocabulary of the statements *)

(** [sub] occurs in [s]: some bytes, then [sub], then some bytes. *)
Definition occurs (sub s : string) : Prop :=
  exists pre post : string, s = pre ++ sub ++ post.

(** A line that carries one of the two error markers. *)
Definition errorLine (line : string) : Prop :=
  occurs "Error:" line \/ occurs Collector.boxError line.

(** The drift heuristic on one record: its action sequence is exactly
    [update]. *)
Definition singleUpdate (rc : ResourceChange) : Prop :=
  Actions (Change rc) = ["update"].

(** The four keywords of the apply summary. *)
Definition keyword (s : string) : Prop :=
  s = "added" \/ s = "changed" \/ s = "destroyed" \/ s = "imported".

Definition isDigit (c : ascii) : bool :=
  (48 <=? Go.byte_val c) && (Go.byte_val c <=? 57).

Fixpoint allDigits (s : string) : bool :=
  match s with
  | EmptyString => true
  | String c t => isDigit c && allDigits t
  end.

(** A count as the tool prints it: a non-empty run of decimal digits. *)
Definition decimal (s : string) : Prop :=
  s <> "" /\ allDigits s = true.

(** The lines of a text from its newline-separated pieces, when no line
    is too long for a scanner: every piece but an empty last one, without
    its trailing carriage return. *)
Fixpoint textLines (pieces : list string) : list string :=
  match pieces with
  | [] => []
  | [final] => if String.eqb final "" then [] else [Go.dropCR final]
  | piece :: rest => Go.dropCR piece :: textLines rest
  end.

(** The gauge names of one run, in the order of their assignments. *)
Definition plannedNames : list string :=
  ["terraform_execution_duration_seconds"; "terraform_timestamp";
   "terraform_drift_detected"; "terraform_resources_total"; "terraform_to_add";
   "terraform_to_change"; "terraform_to_destroy"; "terraform_to_import"].

Definition actualNames : list string :=
  ["terraform_added"; "terraform_changed"; "terraform_destroyed"; "terraform_imported"].

(** No name was assigned twice, the map holds exactly the names assigned,
    and each gauge sits under its own name. *)
Definition distinctNames (m : Collector.Metrics) : Prop :=
  NoDup (Collector.assigned m)
  /\ (forall name, name ∈ Collector.assigned m <-> is_Some (Collector.gauges m !! name))
  /\ (forall name g, Collector.gauges m !! name = Some g -> Name g = name).

Definition driftGauge (value : float64) : Gauge :=
  {| Name := "terraform_drift_detected"; Help := "Drift found during refresh";
     Value := value |}.

Definition plannedGauge (name help : string) : Gauge :=
  {| Name := name; Help := help; Value := ofInt 0 |}.

(** Writing [count] into the bucket that the keyword [kw] names. *)
Definition setBucket (kw : string) (count : Z) (st : Collector.Stats) : Collector.Stats :=
  if String.eqb kw "added" then
    {| Collector.added := count; Collector.changed := Collector.changed st;
       Collector.destroyed := Collector.destroyed st;
       Collector.imported := Collector.imported st |}
  else if String.eqb kw "changed" then
    {| Collector.added := Collector.added st; Collector.changed := count;
       Collector.destroyed := Collector.destroyed st;
       Collector.imported := Collector.imported st |}
  else if String.eqb kw "destroyed" then
    {| Collector.added := Collector.added st; Collector.changed := Collector.changed st;
       Collector.destroyed := count; Collector.imported := Collector.imported st |}
  else if String.eqb kw "imported" then
    {| Collector.added := Collector.added st; Collector.changed := Collector.changed st;
       Collector.destroyed := Collector.destroyed st; Collector.imported := count |}
  else st.

(** The byte [c] is among the bytes of [s]. *)
Fixpoint hasByte (c : ascii) (s : string) : bool :=
  match s with
  | EmptyString => false
  | String x t => Ascii.eqb x c || hasByte c t
  end.

(** A token of ASCII bytes, none of them white space. *)
Definition plainByte (x : ascii) : bool :=
  (Go.byte_val x <? 128) && negb (Go.IsSpace (Go.byte_val x)).

Fixpoint plainToken (s : string) : bool :=
  match s with
  | EmptyString => true
  | String x t => plainByte x && plainToken t
  end.

Fixpoint asciiOnly (s : string) : bool :=
  match s with
  | EmptyString => true
  | String x t => (Go.byte_val x <? 128) && asciiOnly t
  end.

(** One clause of the summary, as the tool writes it after the colon or
    a comma: a blank, the count, a blank, the keyword. *)
Definition clauseOf (count kw : string) : string := " " ++ count ++ " " ++ kw.

(** The summary line for the counts [a], [c] and [n]; it ends in a
    period. *)
Definition summaryOf (a c n : string) : string :=
  "Apply complete! Resources:" ++ clauseOf a "added" ++ "," ++ clauseOf c "changed"
  ++ "," ++ clauseOf n "destroyed.".

(** The runes of a string of ASCII bytes: every byte by itself. *)
Fixpoint byteRunes (s : string) : list (Z * string) :=
  match s with
  | EmptyString => []
  | String x t => (Go.byte_val x, String x "") :: byteRunes t
  end.

(** A decoder with its error thrown away. *)
Definition discardError (Unmarshal : string -> Collector.PlanJSON * option error)
    (data : string) : Collector.PlanJSON * option error :=
  (fst (Unmarshal data), None).

(** ** Sample runs *)

Definition dquote : string := String (ascii_of_nat 34) "".

Definition quoted (s : string) : string := dquote ++ s ++ dquote.

(** A plan document with one resource change, an update in place. *)
Definition updatePlanText : string :=
  "{" ++ quoted "resource_changes" ++ ":[{" ++ quoted "type" ++ ":"
  ++ quoted "aws_instance" ++ "," ++ quoted "change" ++ ":{" ++ quoted "actions"
  ++ ":[" ++ quoted "update" ++ "]}}]}".

Definition updateRecord : ResourceChange :=
  {| Type_ := "aws_instance"; Change := {| Actions := ["update"] |} |}.

(** Decoders that agree with [json.Unmarshal] on the three documents of
    the sample runs: the plan above, the empty object, and the truncated
    document that is a lone opening brace. *)
Definition sampleUnmarshal (data : string) : Collector.PlanJSON * option error :=
  if String.eqb data updatePlanText then
    ({| Collector.Timestamp := ""; Collector.ResourceChanges := [updateRecord] |}, None)
  else if String.eqb data "{}" then (Collector.zeroPlan, None)
  else (Collector.zeroPlan, Some (DecodeError "unexpected end of JSON input")).

Definition sampleUnmarshalPlanOnly (data : string)
  : PlanExporter.PlanJSON * option error :=
  if String.eqb data updatePlanText then
    ({| PlanExporter.ResourceChanges := [updateRecord] |}, None)
  else if String.eqb data "{}" then ({| PlanExporter.ResourceChanges := [] |}, None)
  else ({| PlanExporter.ResourceChanges := [] |},
        Some (DecodeError "unexpected end of JSON input")).

Definition sampleParseRFC3339 (s : string) : option Z := None.

(** What the workflow sets for every run: the gateway to push to, the
    job name to push under, and the labels of the grouping.  With these a
    push that the gateway accepts is a push that can happen. *)
Definition workflowEnv : list (string * string) :=
  [("PUSHGATEWAY_URL", "pushgateway.example"); ("PUSHGATEWAY_JOB", "terraform");
   ("GITHUB_RUN_ID", "42"); ("GITHUB_WORKFLOW", "deploy");
   ("COMMIT_MESSAGE", "resize")].

Definition sampleWorld (env : list (string * string)) (fs : list (string * File)) : World :=
  {| environ := list_to_map (env ++ workflowEnv);
     files := list_to_map fs;
     elapsed := 1500000000;
     sinceUnix := fun sec => (1700000060 - sec) * 1000000000;
     nowUnix := 1700000060;
     gateway := None |}.

Definition summaryLine : string :=
  "Apply complete! Resources: 2 added, 1 changed, 0 destroyed.".

(** The plan holds a lone update, and the refresh log says that nothing
    changed. *)
Definition quietRefreshWorld : World :=
  sampleWorld
    [("TERRAFORM_PLAN_PATH", "plan.json"); ("TERRAFORM_REFRESH_LOG_PATH", "refresh.log")]
    [("plan.json", Contents updatePlanText);
     ("refresh.log",
      Contents ("aws_instance.web: Refreshing state... [id=i-0abc]" ++ Go.newline
                ++ Collector.noChanges ++ Go.newline))].

(** An apply log is there; the plan file is absent, truncated, or an
    empty object. *)
Definition applyEnv : list (string * string) :=
  [("TERRAFORM_PLAN_PATH", "plan.json"); ("TERRAFORM_APPLY_LOG_PATH", "apply.log")].

Definition absentPlanWorld : World :=
  sampleWorld applyEnv [("apply.log", Contents summaryLine)].

Definition truncatedPlanWorld : World :=
  sampleWorld applyEnv [("plan.json", Contents "{"); ("apply.log", Contents summaryLine)].

Definition emptyPlanWorld : World :=
  sampleWorld applyEnv [("plan.json", Contents "{}"); ("apply.log", Contents summaryLine)].

(** An apply log as the tool writes it, the summary line among other
    lines. *)
Definition applyLogText : string :=
  "aws_instance.web: Creating..." ++ Go.newline
  ++ "aws_instance.web: Creation complete after 32s [id=i-0abc]" ++ Go.newline
  ++ Go.newline
  ++ summaryLine ++ Go.newline
  ++ Go.newline
  ++ "Outputs:" ++ Go.newline.

Definition applyLogWorld : World :=
  sampleWorld [("TERRAFORM_APPLY_LOG_PATH", "apply.log")]
    [("apply.log", Contents applyLogText)].

(** The summary of an apply that destroyed five resources. *)
Definition fiveDestroyedWorld : World :=
  sampleWorld [("TERRAFORM_APPLY_LOG_PATH", "apply.log")]
    [("apply.log", Contents (summaryOf "2" "1" "5"))].

(** ** Vocabulary for the rest of the code *)

(** A gauge with its name, help text and value. *)
Definition gauge (name help : string) (value : float64) : Gauge :=
  {| Name := name; Help := help; Value := value |}.

(** How many records of a document have the action [a] among their
    actions. *)
Definition occurrences (a : string) (rcs : list ResourceChange) : Z :=
  Z.of_nat (length (filter (fun rc => a ∈ Actions (Change rc)) rcs)).

(** How many records of a document the drift heuristic names. *)
Definition singleUpdates (rcs : list ResourceChange) : Z :=
  Z.of_nat (length (filter singleUpdate rcs)).

(** The gauges of the plan-only exporter when none is set but the
    duration and the success flag. *)
Definition unsetGauges (w : World) (success : Z) : PlanExporter.Gauges :=
  {| PlanExporter.resourcesTotal := ofInt 0; PlanExporter.resourcesAdded := ofInt 0;
     PlanExporter.resourcesChanged := ofInt 0; PlanExporter.resourcesDestroyed := ofInt 0;
     PlanExporter.executionDuration := ofSeconds (elapsed w);
     PlanExporter.executionSuccess := ofInt success;
     PlanExporter.driftDetected := ofInt 0 |}.

(** The number that the digits of [d] denote when they follow digits
    that denote [acc]. *)
Fixpoint readFrom (d : Decimal.uint) (acc : Z) : Z :=
  match d with
  | Decimal.Nil => acc
  | Decimal.D0 l => readFrom l (acc * 10)
  | Decimal.D1 l => readFrom l (acc * 10 + 1)
  | Decimal.D2 l => readFrom l (acc * 10 + 2)
  | Decimal.D3 l => readFrom l (acc * 10 + 3)
  | Decimal.D4 l => readFrom l (acc * 10 + 4)
  | Decimal.D5 l => readFrom l (acc * 10 + 5)
  | Decimal.D6 l => readFrom l (acc * 10 + 6)
  | Decimal.D7 l => readFrom l (acc * 10 + 7)
  | Decimal.D8 l => readFrom l (acc * 10 + 8)
  | Decimal.D9 l => readFrom l (acc * 10 + 9)
  end.

(** A decimal numeral as text, and a number as the tool prints it. *)
Definition numeral (d : Decimal.uint) : string :=
  DecimalString.NilEmpty.string_of_uint d.

Definition decimalOf (n : N) : string := numeral (N.to_uint n).

(** [s] doubled [n] times over. *)
Fixpoint doubled (n : nat) (s : string) : string :=
  match n with
  | O => s
  | S k => doubled k (s ++ s)
  end.



(** ** More sample runs *)

Definition recordText (type actions : string) : string :=
  "{" ++ quoted "type" ++ ":" ++ quoted type ++ "," ++ quoted "change" ++ ":{"
  ++ quoted "actions" ++ ":[" ++ actions ++ "]}}".

(** A plan that creates one resource, updates one and replaces one. *)
Definition mixedPlanText : string :=
  "{" ++ quoted "resource_changes" ++ ":["
  ++ recordText "aws_instance" (quoted "create") ++ ","
  ++ recordText "aws_s3_bucket" (quoted "update") ++ ","
  ++ recordText "aws_db_instance" (quoted "delete" ++ "," ++ quoted "create")
  ++ "]}".

Definition mixedRecords : list ResourceChange :=
  [ {| Type_ := "aws_instance"; Change := {| Actions := ["create"] |} |};
    {| Type_ := "aws_s3_bucket"; Change := {| Actions := ["update"] |} |};
    {| Type_ := "aws_db_instance"; Change := {| Actions := ["delete"; "create"] |} |} ].

(** The record of a resource that is replaced: deleted, then created. *)
Definition replacedRecord : ResourceChange :=
  {| Type_ := "aws_db_instance"; Change := {| Actions := ["delete"; "create"] |} |}.

(** Decoders that agree with [json.Unmarshal] on that plan. *)
Definition mixedUnmarshal (data : string) : Collector.PlanJSON * option error :=
  if String.eqb data mixedPlanText then
    ({| Collector.Timestamp := ""; Collector.ResourceChanges := mixedRecords |}, None)
  else (Collector.zeroPlan, Some (DecodeError "unexpected end of JSON input")).

Definition mixedUnmarshalPlanOnly (data : string)
  : PlanExporter.PlanJSON * option error :=
  if String.eqb data mixedPlanText then
    ({| PlanExporter.ResourceChanges := mixedRecords |}, None)
  else ({| PlanExporter.ResourceChanges := [] |},
        Some (DecodeError "unexpected end of JSON input")).

Definition mixedPlanWorld : World :=
  sampleWorld [("TERRAFORM_PLAN_PATH", "plan.json")]
    [("plan.json", Contents mixedPlanText)].

(** An apply log with two summaries, the later one the one that counts. *)
Definition twoSummariesText : string :=
  summaryOf (decimalOf 9) (decimalOf 9) (decimalOf 9) ++ Go.newline
  ++ "aws_instance.web: Modifying... [id=i-0abc]" ++ Go.newline
  ++ summaryOf (decimalOf 2) (decimalOf 1) (decimalOf 5) ++ Go.newline.

Definition twoSummariesWorld : World :=
  sampleWorld [("TERRAFORM_APPLY_LOG_PATH", "apply.log")]
    [("apply.log", Contents twoSummariesText)].

(** A log whose second line has 65536 bytes, with an error behind it. *)
Definition longLine : string := doubled 16 "x".

Definition hiddenErrorText : string :=
  "Plan: 1 to add." ++ Go.newline ++ longLine ++ Go.newline ++ "Error: boom".

Definition hiddenErrorWorld : World :=
  sampleWorld [("TERRAFORM_APPLY_LOG_PATH", "apply.log")]
    [("apply.log", Contents hiddenErrorText)].

(** The same log without the long line. *)
Definition shownErrorText : string :=
  "Plan: 1 to add." ++ Go.newline ++ "Error: boom".

Definition shownErrorWorld : World :=
  sampleWorld [("TERRAFORM_APPLY_LOG_PATH", "apply.log")]
    [("apply.log", Contents shownErrorText)].

(** A service for the summarizer: [filepath.Join] on two elements that
    need no cleaning, a map visited last entry first, a client that is
    created, a model that answers, and a file system that takes the
    file. *)
Definition sampleJoin (dir name : string) : string := dir ++ "/" ++ name.

Definition sampleVisit (entries : list (string * string)) : list (string * string) :=
  rev entries.

Definition sampleNewClient (apiKey : string) : option string := None.

Definition sampleGenerate (model text : string) : string + string :=
  inr "Two resources were added and one was changed; no errors.".

Definition sampleWriteFile (path contents : string) : option string := None.


(** The same, with a plan log that cannot be opened. *)
Definition lockedLogWorld : World :=
  sampleWorld [("GOOGLE_API_KEY", "secret")]
    [("exporter/terraform-refresh-42.log", Contents Collector.noChanges);
     ("exporter/terraform-plan-42.log", Unreadable "permission denied")].

(** ** Facts about the library functions *)

#[local] Arguments String.append !s1 s2 : simpl nomatch.

Section StringFacts.

Lemma append_nil_r (s : string) : s ++ "" = s.
Proof. induction s as [|c s IH]; simpl; [reflexivity | now rewrite IH]. Qed.

Lemma append_assoc (a b c : string) : (a ++ b) ++ c = a ++ (b ++ c).
Proof. induction a as [|x a IH]; simpl; [reflexivity | now rewrite IH]. Qed.

Lemma prefix_spec (a s : string) :
  String.prefix a s = true <-> exists t, s = a ++ t.
Proof.
  revert s. induction a as [|x a IH]; intros s; simpl.
  - split; [intros _; now exists s | intros _; now destruct s].
  - destruct s as [|y s].
    + split; [discriminate | intros [t Ht]; discriminate].
    + simpl. destruct (Ascii.ascii_dec x y) as [->|Hne].
      * rewrite IH. split; intros [t Ht]; exists t; simpl in *; congruence.
      * split; [discriminate | intros [t Ht]; simpl in Ht; congruence].
Qed.

Lemma Contains_spec (s sub : string) :
  Go.Contains s sub = true <-> occurs sub s.
Proof.
  induction s as [|c s IH]; cbn [Go.Contains].
  - rewrite orb_false_r, prefix_spec. split.
    + intros [t Ht]. exists "", t. exact Ht.
    + intros [pre [post H]]. destruct pre; simpl in H; [now exists post | discriminate].
  - rewrite orb_true_iff, prefix_spec, IH. split.
    + intros [[t Ht] | [pre [post H]]].
      * exists "", t. exact Ht.
      * exists (String c pre), post. simpl. now rewrite H.
    + intros [pre [post H]]. destruct pre as [|x pre]; simpl in H.
      * left. now exists post.
      * right. exists pre, post. congruence.
Qed.

Lemma Contains_false (s sub : string) :
  Go.Contains s sub = false <-> ~ occurs sub s.
Proof.
  rewrite <- Contains_spec. destruct (Go.Contains s sub); split; intros H;
    try discriminate; try reflexivity; try (intro; discriminate).
  now contradiction H.
Qed.

End StringFacts.

Section OutcomeClassifier.

Lemma noErrorLine_spec (lines : list string) :
  Collector.noErrorLine lines = true <-> Forall (fun line => ~ errorLine line) lines.
Proof.
  induction lines as [|line rest IH]; simpl.
  - split; [constructor | reflexivity].
  - destruct (Go.Contains line "Error:") eqn:E1; simpl.
    + split; [discriminate |].
      intros H. inversion H as [|? ? Hl _]; subst. destruct Hl. left.
      now apply Contains_spec.
    + destruct (Go.Contains line Collector.boxError) eqn:E2.
      * split; [discriminate |].
        intros H. inversion H as [|? ? Hl _]; subst. destruct Hl. right.
        now apply Contains_spec.
      * rewrite IH. apply Contains_false in E1, E2. split.
        -- intros H. constructor; [|exact H]. intros [H1 | H2]; tauto.
        -- intros H. now inversion H.
Qed.

(** When every line fits the buffer, the scanner delivers the lines of
    the text, all of them. *)
Lemma scanTokens_fit (pieces : list string) :
  Forall (fun piece => Go.len piece < Go.MaxScanTokenSize) pieces ->
  Go.scanTokens pieces = textLines pieces.
Proof.
  induction 1 as [|piece rest Hp _ IH]; [reflexivity |].
  apply Z.leb_gt in Hp. cbn [Go.scanTokens textLines]. rewrite Hp, IH.
  destruct rest; reflexivity.
Qed.

Lemma scanLines_fit (data : string) :
  Forall (fun piece => Go.len piece < Go.MaxScanTokenSize) (Go.Split data Go.newline) ->
  Go.scanLines data = textLines (Go.Split data Go.newline).
Proof. apply scanTokens_fit. Qed.

(** A line that does not fit the buffer ends the scan: the lines before
    it are delivered, and nothing of what follows. *)
Lemma scanTokens_oversized (before after : list string) (piece : string) :
  Forall (fun p => Go.len p < Go.MaxScanTokenSize) before ->
  Go.MaxScanTokenSize <= Go.len piece ->
  Go.scanTokens (before ++ piece :: after)%list = map Go.dropCR before.
Proof.
  intros Hb Hp. apply Z.leb_le in Hp as Hp'.
  induction Hb as [|p before Hlt _ IH].
  - cbn [app map Go.scanTokens]. rewrite Hp'.
    destruct after; [|reflexivity].
    destruct piece; [|reflexivity].
    unfold Go.len, Go.MaxScanTokenSize in Hp. simpl in Hp. lia.
  - apply Z.leb_gt in Hlt. cbn [app map Go.scanTokens]. rewrite Hlt, IH.
    destruct before; reflexivity.
Qed.

(** The box-drawing marker is the three bytes of U+2502 followed by
    [" Error"]. *)
Lemma boxError_bytes :
  Collector.boxError =
  String (ascii_of_nat 226) (String (ascii_of_nat 148) (String (ascii_of_nat 130) " Error"))
  /\ Go.runes (String (ascii_of_nat 226) (String (ascii_of_nat 148)
                 (String (ascii_of_nat 130) ""))) =
     [(9474, String (ascii_of_nat 226) (String (ascii_of_nat 148)
                 (String (ascii_of_nat 130) "")))].
Proof. split; reflexivity. Qed.

(** [isTerraformRunSuccessful] answers true exactly when the transcript
    can be opened and none of the lines the scanner delivers carries
    ["Error:"] or the box-drawing marker.  The error of the scanner is
    never looked at, so what the scanner does not deliver is not
    examined. *)
Lemma outcome_classifier (w : World) (logPath : string) :
  Collector.isTerraformRunSuccessful w logPath = true
  <-> exists data : string,
        Open w logPath = inr data
        /\ Forall (fun line => ~ errorLine line) (Go.scanLines data).
Proof.
  unfold Collector.isTerraformRunSuccessful.
  destruct (Open w logPath) as [err | data].
  - split; [discriminate | intros [data [H _]]; discriminate].
  - rewrite noErrorLine_spec. split.
    + intros H. now exists data.
    + intros [data' [Heq H]]. now inversion Heq; subst.
Qed.

(** On a transcript whose lines all fit the buffer of the scanner, the
    answer is true exactly when no line of the text carries a marker. *)
Lemma classifier_when_lines_fit (w : World) (logPath data : string) :
  Open w logPath = inr data ->
  Forall (fun piece => Go.len piece < Go.MaxScanTokenSize) (Go.Split data Go.newline) ->
  Collector.isTerraformRunSuccessful w logPath = true
  <-> Forall (fun line => ~ errorLine line) (textLines (Go.Split data Go.newline)).
Proof.
  intros Hopen Hfit. unfold Collector.isTerraformRunSuccessful.
  rewrite Hopen, scanLines_fit by exact Hfit. apply noErrorLine_spec.
Qed.

End OutcomeClassifier.

Section RefreshLogInterpreter.


End RefreshLogInterpreter.

Section ActionTally.

Lemma contains_elem_of (slice : list string) (val : string) :
  contains slice val = true <-> val ∈ slice.
Proof.
  induction slice as [|item rest IH]; simpl.
  - split; [discriminate | intros H; inversion H].
  - destruct (String.eqb_spec item val) as [->|Hne].
    + split; [intros _; constructor | reflexivity].
    + rewrite IH. split; [intros H; now constructor |].
      intros H. inversion H; subst; [congruence | assumption].
Qed.

Lemma contains_decide (slice : list string) (val : string) :
  contains slice val = bool_decide (val ∈ slice).
Proof.
  destruct (contains slice val) eqn:E; symmetry.
  - apply bool_decide_eq_true, contains_elem_of, E.
  - apply bool_decide_eq_false. intros H. apply contains_elem_of in H. congruence.
Qed.

(** An increment always changes a counter, and is the successor below
    the largest [int]. *)
Lemma incr_changes (x : Z) : Go.incr x <> x.
Proof.
  unfold Go.incr, Go.wrapInt. intros H.
  pose proof (Z.mod_pos_bound (x + 1 + 2 ^ 63) (2 ^ 64) ltac:(lia)) as Hb.
  assert (Hx : (x + 1 + 2 ^ 63) mod 2 ^ 64 = x + 2 ^ 63) by lia.
  assert (Hs : (x + 2 ^ 63) mod 2 ^ 64 = x + 2 ^ 63)
    by (apply Z.mod_small; lia).
  replace (x + 1 + 2 ^ 63) with ((x + 2 ^ 63) + 1) in Hx by lia.
  rewrite Z.add_mod in Hx by lia. rewrite Hs in Hx.
  change (1 mod 2 ^ 64) with 1 in Hx.
  destruct (Z.eq_dec (x + 2 ^ 63 + 1) (2 ^ 64)) as [E | E].
  - rewrite E, Z.mod_same in Hx by lia. lia.
  - rewrite Z.mod_small in Hx by lia. lia.
Qed.

Lemma incr_succ (x : Z) : Go.minInt <= x < Go.maxInt -> Go.incr x = x + 1.
Proof.
  unfold Go.incr, Go.wrapInt, Go.minInt, Go.maxInt. intros H.
  rewrite Z.mod_small; lia.
Qed.

(** An increment of an [int], written out: the next number, and from
    the largest [int] the smallest. *)
Lemma incr_int (x : Z) :
  Go.minInt <= x <= Go.maxInt ->
  (x < Go.maxInt -> Go.incr x = x + 1) /\ (x = Go.maxInt -> Go.incr x = Go.minInt).
Proof.
  intros H. split.
  - intros Hlt. apply incr_succ. lia.
  - intros ->. reflexivity.
Qed.

(** C5. Both tally loops classify a record by membership.  A bucket
    counts a record exactly when its action is among the record's
    actions: add for [create], change for [update], destroy for [delete],
    import for [import].  A bucket that counts the record goes up by one
    (from the largest [int] it wraps to the smallest); a bucket that does
    not keeps its value.  The
    plan-only exporter does the same for its three buckets.  A record
    with actions [delete, create] adds one to add and one to destroy in
    both loops, leaves change and import alone, and does not touch the
    drift counter.  The counters are any values of Go's [int]. *)
Theorem action_tally_membership (rc : ResourceChange)
    (t : Collector.Tally) (c : PlanExporter.Counters) :
  let actions := Actions (Change rc) in
  let t' := Collector.tally t rc in
  let c' := PlanExporter.tally c rc in
  let counts (a : string) (x x' : Z) : Prop :=
    (a ∈ actions -> x < Go.maxInt -> x' = x + 1)
    /\ (a ∈ actions -> x = Go.maxInt -> x' = Go.minInt)
    /\ (a ∉ actions -> x' = x) in
  Forall (fun x => Go.minInt <= x <= Go.maxInt)
    [Collector.toAdd t; Collector.toChange t; Collector.toDestroy t;
     Collector.toImport t; PlanExporter.added c; PlanExporter.changed c;
     PlanExporter.destroyed c] ->
  counts "create" (Collector.toAdd t) (Collector.toAdd t')
  /\ counts "update" (Collector.toChange t) (Collector.toChange t')
  /\ counts "delete" (Collector.toDestroy t) (Collector.toDestroy t')
  /\ counts "import" (Collector.toImport t) (Collector.toImport t')
  /\ counts "create" (PlanExporter.added c) (PlanExporter.added c')
  /\ counts "update" (PlanExporter.changed c) (PlanExporter.changed c')
  /\ counts "delete" (PlanExporter.destroyed c) (PlanExporter.destroyed c')
  /\ (actions = ["delete"; "create"] ->
      (Collector.toAdd t < Go.maxInt -> Collector.toAdd t' = Collector.toAdd t + 1)
      /\ (Collector.toDestroy t < Go.maxInt ->
          Collector.toDestroy t' = Collector.toDestroy t + 1)
      /\ Collector.toChange t' = Collector.toChange t
      /\ Collector.toImport t' = Collector.toImport t
      /\ (PlanExporter.added c < Go.maxInt ->
          PlanExporter.added c' = PlanExporter.added c + 1)
      /\ (PlanExporter.destroyed c < Go.maxInt ->
          PlanExporter.destroyed c' = PlanExporter.destroyed c + 1)
      /\ PlanExporter.changed c' = PlanExporter.changed c
      /\ PlanExporter.drift c' = PlanExporter.drift c).
Proof.
  intros actions t' c' counts Hint.
  assert (Hstep : forall (a : string) (x : Z), Go.minInt <= x <= Go.maxInt ->
            counts a x (if contains actions a then Go.incr x else x)).
  { intros a x Hx. destruct (incr_int x Hx) as [Hup Hwrap].
    destruct (contains actions a) eqn:E.
    - apply contains_elem_of in E.
      split; [intros _; exact Hup | split; [intros _; exact Hwrap |]].
      intros Hn. contradiction.
    - assert (Hn : a ∉ actions)
        by (intros Hin; apply contains_elem_of in Hin; congruence).
      split; [intros Hin; contradiction | split; [intros Hin; contradiction |]].
      reflexivity. }
  repeat (apply Forall_cons in Hint as [? Hint]).
  repeat (split; [apply Hstep; assumption |]).
  intros E. subst t' c'.
  unfold Collector.tally, PlanExporter.tally. fold actions. rewrite E.
  cbn [Collector.toAdd Collector.toChange Collector.toDestroy
    Collector.toImport PlanExporter.added PlanExporter.changed
    PlanExporter.destroyed PlanExporter.drift contains String.eqb Ascii.eqb
    Bool.eqb length].
  repeat split; try reflexivity; intros Hlt; apply incr_int; assumption.
Qed.

(** The record of a replacement, counted from zero: one in add and one
    in destroy, nothing in change, import and drift. *)
Lemma action_tally_membership_sample :
  let t' := Collector.tally (Collector.count []) replacedRecord in
  let c' := PlanExporter.tally (PlanExporter.count []) replacedRecord in
  Collector.toAdd t' = 1 /\ Collector.toDestroy t' = 1
  /\ Collector.toChange t' = 0 /\ Collector.toImport t' = 0
  /\ PlanExporter.added c' = 1 /\ PlanExporter.destroyed c' = 1
  /\ PlanExporter.changed c' = 0 /\ PlanExporter.drift c' = 0.
Proof.
  intros t' c'.
  destruct (action_tally_membership replacedRecord (Collector.count [])
              (PlanExporter.count [])) as (_ & _ & _ & _ & _ & _ & _ & Hboth).
  - repeat constructor; vm_compute; discriminate.
  - destruct (Hboth eq_refl) as (Ha & Hd & Hc & Hi & Ha' & Hd' & Hc' & Hdr).
    assert (Hlow : 0 < Go.maxInt) by reflexivity.
    exact (conj (Ha Hlow) (conj (Hd Hlow) (conj Hc (conj Hi
             (conj (Ha' Hlow) (conj (Hd' Hlow) (conj Hc' Hdr))))))).
Defined.

End ActionTally.

Section PlanDrift.

Variable Unmarshal : string -> PlanExporter.PlanJSON * option error.

(** The test [len(actions) == 1 && actions[0] == "update"] holds exactly
    for the records the heuristic names. *)
Lemma single_update_test (rc : ResourceChange) :
  (Z.of_nat (length (Actions (Change rc))) =? 1)
  && bool_decide (Actions (Change rc) !! 0%nat = Some "update") = true
  <-> singleUpdate rc.
Proof.
  unfold singleUpdate. destruct (Actions (Change rc)) as [|a [|b l]].
  - split; discriminate.
  - simpl. rewrite bool_decide_eq_true. split; congruence.
  - split; [|discriminate]. rewrite andb_true_iff. intros [H _].
    apply Z.eqb_eq in H. cbn [length] in H. lia.
Qed.

Lemma drift_tally (c : PlanExporter.Counters) (rc : ResourceChange) :
  PlanExporter.drift (PlanExporter.tally c rc) =
  if decide (singleUpdate rc) then Go.incr (PlanExporter.drift c)
  else PlanExporter.drift c.
Proof.
  unfold PlanExporter.tally; cbn [PlanExporter.drift].
  pose proof (single_update_test rc) as H.
  destruct (decide (singleUpdate rc)) as [Hs | Hs].
  - apply H in Hs. now rewrite Hs.
  - destruct ((Z.of_nat (length (Actions (Change rc))) =? 1)
              && bool_decide (Actions (Change rc) !! 0%nat = Some "update"));
      [exfalso; apply Hs, H; reflexivity | reflexivity].
Qed.

(** As long as the counter cannot overflow, the drift counter after the
    loop is its value before plus the number of records the heuristic
    names. *)
Lemma drift_fold (rcs : list ResourceChange) (c : PlanExporter.Counters) :
  0 <= PlanExporter.drift c ->
  PlanExporter.drift c + Z.of_nat (length rcs) <= Go.maxInt ->
  PlanExporter.drift (fold_left PlanExporter.tally rcs c) =
  PlanExporter.drift c + Z.of_nat (length (filter singleUpdate rcs)).
Proof.
  revert c. induction rcs as [|rc rcs IH]; intros c H0 Hmax; simpl.
  - lia.
  - rewrite filter_cons. simpl length in Hmax.
    assert (Hstep : PlanExporter.drift (PlanExporter.tally c rc) =
                    if decide (singleUpdate rc) then PlanExporter.drift c + 1
                    else PlanExporter.drift c).
    { rewrite drift_tally. destruct (decide (singleUpdate rc)); [|reflexivity].
      apply incr_succ. unfold Go.minInt, Go.maxInt in *. lia. }
    rewrite IH.
    + rewrite Hstep. destruct (decide (singleUpdate rc)); simpl length; lia.
    + rewrite Hstep. destruct (decide (singleUpdate rc)); lia.
    + rewrite Hstep. destruct (decide (singleUpdate rc)); lia.
Qed.

Lemma filter_nonempty_Exists (rcs : list ResourceChange) :
  (0 < length (filter singleUpdate rcs))%nat <-> Exists singleUpdate rcs.
Proof.
  induction rcs as [|rc rcs IH].
  - simpl. split; [lia | intros H; inversion H].
  - rewrite filter_cons, Exists_cons. destruct (decide (singleUpdate rc)) as [H | H].
    + simpl. split; [now left | lia].
    + rewrite IH. tauto.
Qed.

(** C6. On a plan that reads and decodes, [parseTerraformPlan] sets the
    drift gauge to 1 exactly when some record of the document has the
    action sequence [update] and nothing else, and to 0 otherwise; in
    particular to 0 for a document without resource changes.  (A slice
    never has more than [maxInt] elements.) *)
Theorem plan_drift_detected (w : World) (path data : string)
    (g : PlanExporter.Gauges) (plan : PlanExporter.PlanJSON) :
  ReadFile w path = inr data ->
  Unmarshal data = (plan, None) ->
  Z.of_nat (length (PlanExporter.ResourceChanges plan)) <= Go.maxInt ->
  let g' := fst (PlanExporter.parseTerraformPlan Unmarshal w path g) in
  (PlanExporter.driftDetected g' = ofInt 1
     <-> Exists singleUpdate (PlanExporter.ResourceChanges plan))
  /\ (PlanExporter.driftDetected g' = ofInt 0
     <-> ~ Exists singleUpdate (PlanExporter.ResourceChanges plan))
  /\ (PlanExporter.ResourceChanges plan = [] -> PlanExporter.driftDetected g' = ofInt 0).
Proof.
  intros Hread Hdec Hlen g'. subst g'.
  unfold PlanExporter.parseTerraformPlan. rewrite Hread, Hdec.
  cbn [fst PlanExporter.driftDetected]. unfold PlanExporter.count.
  rewrite drift_fold by (cbn [PlanExporter.drift]; lia).
  cbn [PlanExporter.drift]. rewrite Z.add_0_l.
  pose proof (filter_nonempty_Exists (PlanExporter.ResourceChanges plan)) as Hex.
  set (k := length (filter singleUpdate (PlanExporter.ResourceChanges plan))) in *.
  assert (Hmin : PlanExporter.min 1 (Z.of_nat k) = if decide (0 < k)%nat then 1 else 0).
  { unfold PlanExporter.min. destruct (decide (0 < k)%nat);
      destruct (Z.ltb_spec 1 (Z.of_nat k)); lia. }
  rewrite Hmin. destruct (decide (0 < k)%nat) as [Hk | Hk].
  - split; [|split].
    + split; [intros _; apply Hex, Hk | reflexivity].
    + split; [discriminate | intros Hn; exfalso; apply Hn, Hex, Hk].
    + intros E. exfalso. subst k. rewrite E in Hk. simpl in Hk. lia.
  - split; [|split].
    + split; [discriminate | intros Hx; exfalso; apply Hk, Hex, Hx].
    + split; [intros _ Hx; apply Hk, Hex, Hx | reflexivity].
    + reflexivity.
Qed.

End PlanDrift.

Section PlanDriftSample.

(** The plan with the lone update: the drift gauge is set to 1. *)
Lemma plan_drift_detected_sample :
  let g' := fst (PlanExporter.parseTerraformPlan sampleUnmarshalPlanOnly quietRefreshWorld
                   "plan.json" PlanExporter.initial) in
  (PlanExporter.driftDetected g' = ofInt 1 <-> Exists singleUpdate [updateRecord])
  /\ (PlanExporter.driftDetected g' = ofInt 0 <-> ~ Exists singleUpdate [updateRecord])
  /\ ([updateRecord] = [] -> PlanExporter.driftDetected g' = ofInt 0).
Proof.
  apply (plan_drift_detected sampleUnmarshalPlanOnly quietRefreshWorld "plan.json"
           updatePlanText PlanExporter.initial
           {| PlanExporter.ResourceChanges := [updateRecord] |}).
  - vm_compute; reflexivity.
  - vm_compute; reflexivity.
  - vm_compute; discriminate.
Defined.

End PlanDriftSample.

Section ApplyLogTotal.

Lemma forEach_total {A S : Type} (body : S -> A -> option S) (l : list A) :
  (forall s x, is_Some (body s x)) -> forall s, is_Some (Collector.forEach body s l).
Proof.
  intros Hbody. induction l as [|x l IH]; intros s; simpl.
  - eauto.
  - destruct (Hbody s x) as [s' ->]. simpl. apply IH.
Qed.

(** The two index expressions of [statStep] are guarded by the length
    test before them. *)
Lemma statStep_total (st : Collector.Stats) (stat : string) :
  is_Some (Collector.statStep st stat).
Proof.
  unfold Collector.statStep.
  destruct (Go.Fields (Go.TrimSpace stat)) as [|p0 [|p1 parts]]; simpl; eauto.
  destruct (Go.Atoi p0). destruct (_ <? 2); eauto.
Qed.

Lemma lineStep_total (st : Collector.Stats) (line : string) :
  is_Some (Collector.lineStep st line).
Proof.
  unfold Collector.lineStep.
  destruct (Go.Contains line "Apply complete!"); [|eauto].
  destruct (Go.Split line ":") as [|f0 [|f1 fields]]; simpl; eauto.
  destruct (_ <? 2); [eauto |]. apply forEach_total, statStep_total.
Qed.

(** [parseLogStats] returns on every input: it has no panic. *)
Lemma parseLogStats_total (w : World) (path : string) :
  is_Some (Collector.parseLogStats w path).
Proof.
  unfold Collector.parseLogStats. destruct (Open w path); [eauto |].
  apply forEach_total, lineStep_total.
Qed.

End ApplyLogTotal.

Section MetricSet.

Variable Unmarshal : string -> Collector.PlanJSON * option error.
Variable ParseRFC3339 : string -> option Z.

Lemma noMetrics_distinct : distinctNames Collector.noMetrics.
Proof.
  unfold distinctNames, Collector.noMetrics; simpl. split; [constructor | split].
  - intros name. rewrite lookup_empty. split; [intros H; inversion H | intros [g H]; discriminate].
  - intros name g. rewrite lookup_empty. discriminate.
Qed.

(** Assigning a name that was not assigned before keeps the names
    distinct. *)
Lemma makeGauge_distinct (name help : string) (value : float64) (m : Collector.Metrics) :
  distinctNames m -> name ∉ Collector.assigned m ->
  distinctNames (Collector.makeGauge name help value m).
Proof.
  intros (Hnd & Hdom & Hname) Hfresh. unfold distinctNames, Collector.makeGauge; simpl.
  split; [|split].
  - apply NoDup_app. split; [exact Hnd | split].
    + intros x Hx Hin. apply list_elem_of_singleton in Hin. congruence.
    + apply NoDup_singleton.
  - intros k. rewrite elem_of_app, list_elem_of_singleton, lookup_insert.
    destruct (decide (name = k)) as [->|Hne].
    + split; [eauto | now right].
    + rewrite Hdom. split; [intros [H | H]; [exact H | congruence] | now left].
  - intros k g. rewrite lookup_insert. destruct (decide (name = k)) as [->|Hne].
    + intros [= <-]. reflexivity.
    + apply Hname.
Qed.

Ltac next_gauge :=
  apply makeGauge_distinct;
  [ | cbn [Collector.assigned Collector.makeGauge Collector.noMetrics app];
      apply (bool_decide_unpack _); vm_compute; exact I ].

(** C9. [collectMetrics] returns, and in the metric set it assembled no
    name was assigned twice: the names assigned are the eight planned
    gauges, then the four actual gauges when an apply log is configured,
    then the result gauge, all different; the map holds exactly these
    names, each with the gauge of that name. *)
Theorem gauge_names_unique (w : World) :
  exists run : Collector.Run,
    Collector.collectMetrics Unmarshal ParseRFC3339 w = Some run
    /\ Collector.assigned (Collector.metrics run) =
       (plannedNames
        ++ (if String.eqb (Getenv w "TERRAFORM_APPLY_LOG_PATH") "" then [] else actualNames)
        ++ ["terraform_result"])%list
    /\ distinctNames (Collector.metrics run).
Proof.
  unfold Collector.collectMetrics.
  destruct (Collector.detectDrift w _) as [drift out].
  destruct (String.eqb (Getenv w "TERRAFORM_APPLY_LOG_PATH") ""); cbn [negb].
  - cbn [mbind option_bind].
    destruct (Collector.isTerraformRunSuccessful w _);
      (eexists; split; [reflexivity |]; split; [reflexivity |]);
      cbn [Collector.metrics]; repeat next_gauge; apply noMetrics_distinct.
  - destruct (parseLogStats_total w (Getenv w "TERRAFORM_APPLY_LOG_PATH")) as [st ->].
    cbn [mbind option_bind].
    destruct (Collector.isTerraformRunSuccessful w _);
      (eexists; split; [reflexivity |]; split; [reflexivity |]);
      cbn [Collector.metrics]; repeat next_gauge; apply noMetrics_distinct.
Qed.

End MetricSet.

Lemma lookup_makeGauge (name help : string) (value : float64)
    (m : Collector.Metrics) (k : string) :
  Collector.gauges (Collector.makeGauge name help value m) !! k =
  if decide (name = k) then Some {| Name := name; Help := help; Value := value |}
  else Collector.gauges m !! k.
Proof. unfold Collector.makeGauge; simpl. apply lookup_insert. Qed.

Ltac lookup_gauge :=
  cbn [Collector.metrics];
  repeat (rewrite lookup_makeGauge;
          match goal with
          | |- context [decide (?a = ?b)] =>
            destruct (decide (a = b)) as [E | E];
            [try discriminate E | try (exfalso; apply E; reflexivity)]
          end);
  try reflexivity.

Section DriftGauge.

Variable Unmarshal : string -> Collector.PlanJSON * option error.
Variable ParseRFC3339 : string -> option Z.

(** C1, as the code has it.  [collectMetrics] returns, and the gauge
    [terraform_drift_detected] it publishes is the result of
    [detectDrift] on the configured refresh log and nothing else: it is 1
    exactly when that log can be read, lacks the no-changes phrase and
    has ["Refreshing state..."].  The plan document has no part in it. *)
Theorem drift_gauge_is_refresh_signal (w : World) :
  let refreshLogPath := Getenv w "TERRAFORM_REFRESH_LOG_PATH" in
  exists run : Collector.Run,
    Collector.collectMetrics Unmarshal ParseRFC3339 w = Some run
    /\ Collector.gauges (Collector.metrics run) !! "terraform_drift_detected" =
       Some (driftGauge (fst (Collector.detectDrift w refreshLogPath)))
    /\ (fst (Collector.detectDrift w refreshLogPath) = ofInt 1
        <-> exists text : string,
              ReadFile w refreshLogPath = inr text
              /\ ~ occurs Collector.noChanges text
              /\ occurs "Refreshing state..." text)
    /\ (fst (Collector.detectDrift w refreshLogPath) <> ofInt 1
        -> fst (Collector.detectDrift w refreshLogPath) = ofInt 0).
Proof.
  intros refreshLogPath.
  assert (Hrun : exists run : Collector.Run,
    Collector.collectMetrics Unmarshal ParseRFC3339 w = Some run
    /\ Collector.gauges (Collector.metrics run) !! "terraform_drift_detected" =
       Some (driftGauge (fst (Collector.detectDrift w refreshLogPath)))).
  { unfold Collector.collectMetrics. fold refreshLogPath.
    destruct (Collector.detectDrift w refreshLogPath) as [drift out].
    destruct (String.eqb (Getenv w "TERRAFORM_APPLY_LOG_PATH") ""); cbn [negb].
    - cbn [mbind option_bind].
      destruct (Collector.isTerraformRunSuccessful w _);
        (eexists; split; [reflexivity |]); lookup_gauge.
    - destruct (parseLogStats_total w (Getenv w "TERRAFORM_APPLY_LOG_PATH")) as [st ->].
      cbn [mbind option_bind].
      destruct (Collector.isTerraformRunSuccessful w _);
        (eexists; split; [reflexivity |]); lookup_gauge. }
  destruct Hrun as (run & Hrun & Hg). exists run. split; [exact Hrun |]. split; [exact Hg |].
  unfold Collector.detectDrift. destruct (ReadFile w refreshLogPath) as [err | text].
  - simpl. split; [|intros _; reflexivity].
    split; [discriminate | intros (text & H & _); discriminate].
  - destruct (Go.Contains text Collector.noChanges) eqn:E1; simpl.
    + split; [|intros _; reflexivity]. split; [discriminate |].
      intros (text' & [= <-] & Hn & _). apply Contains_spec in E1. contradiction.
    + destruct (Go.Contains text "Refreshing state...") eqn:E2; simpl.
      * split; [|intros H; now contradiction H]. split; [|reflexivity].
        intros _. exists text. apply Contains_false in E1. apply Contains_spec in E2.
        now repeat split.
      * split; [|intros _; reflexivity]. split; [discriminate |].
        intros (text' & [= <-] & _ & Hr). apply Contains_false in E2. contradiction.
Qed.

End DriftGauge.

Section DriftGaugeSample.

(** C1 fails on the code.  The plan of this run holds a lone update, so
    the plan-derived signal is true (the plan-only exporter sets its
    drift gauge to 1 on it); the refresh log has the no-changes phrase,
    so the refresh-derived signal is false; and the collector publishes
    [terraform_drift_detected] as 0, which is not the disjunction. *)
Lemma drift_gauge_misses_plan_signal :
  PlanExporter.driftDetected
    (fst (PlanExporter.parseTerraformPlan sampleUnmarshalPlanOnly quietRefreshWorld
            "plan.json" PlanExporter.initial)) = ofInt 1
  /\ Collector.ResourceChanges
       (fst (sampleUnmarshal updatePlanText)) = [updateRecord]
  /\ singleUpdate updateRecord
  /\ Collector.detectDrift quietRefreshWorld "refresh.log" = (ofInt 0, [])
  /\ (run ← Collector.collectMetrics sampleUnmarshal sampleParseRFC3339 quietRefreshWorld;
      Collector.gauges (Collector.metrics run) !! "terraform_drift_detected")
     = Some (driftGauge (ofInt 0)).
Proof. repeat split; vm_compute; reflexivity. Qed.

End DriftGaugeSample.

Section PlanFailures.

Variable Unmarshal : string -> Collector.PlanJSON * option error.
Variable ParseRFC3339 : string -> option Z.
Variable UnmarshalPlanOnly : string -> PlanExporter.PlanJSON * option error.

(** [collectMetrics] never looks at the error of [json.Unmarshal]. *)
Lemma collectMetrics_discards_decode_error (w : World) :
  Collector.collectMetrics Unmarshal ParseRFC3339 w =
  Collector.collectMetrics (discardError Unmarshal) ParseRFC3339 w.
Proof. reflexivity. Qed.

(** C3, as the code has it.  Neither program treats its two failures of
    the plan differently.  [collectMetrics] tolerates both: it returns
    what the gateway answered and nothing else; an error of the decoder
    is thrown away, the tally going over whatever the decoder left in the
    document; and when the plan file cannot be read all five planned
    counts are published as 0.  [parseTerraformPlan] reports both: the
    error of the read, or the error of the decoder, is returned to the
    caller as it is, and no gauge is set. *)
Theorem plan_failure_modes (w : World) (path : string) (g : PlanExporter.Gauges) :
  let planPath := Getenv w "TERRAFORM_PLAN_PATH" in
  Collector.collectMetrics Unmarshal ParseRFC3339 w =
    Collector.collectMetrics (discardError Unmarshal) ParseRFC3339 w
  /\ (exists run : Collector.Run,
        Collector.collectMetrics Unmarshal ParseRFC3339 w = Some run
        /\ Collector.returned run = gateway w
        /\ ((exists err, ReadFile w planPath = inl err) ->
            let published := Collector.gauges (Collector.metrics run) in
            published !! "terraform_resources_total" =
              Some (plannedGauge "terraform_resources_total" "Total planned resource changes")
            /\ published !! "terraform_to_add" =
              Some (plannedGauge "terraform_to_add" "Resources planned to be added")
            /\ published !! "terraform_to_change" =
              Some (plannedGauge "terraform_to_change" "Resources planned to be changed")
            /\ published !! "terraform_to_destroy" =
              Some (plannedGauge "terraform_to_destroy" "Resources planned to be destroyed")
            /\ published !! "terraform_to_import" =
              Some (plannedGauge "terraform_to_import" "Resources planned to be imported")))
  /\ (forall err : error, ReadFile w path = inl err ->
        PlanExporter.parseTerraformPlan UnmarshalPlanOnly w path g = (g, Some err))
  /\ (forall (data : string) (plan : PlanExporter.PlanJSON) (err : error),
        ReadFile w path = inr data -> UnmarshalPlanOnly data = (plan, Some err) ->
        PlanExporter.parseTerraformPlan UnmarshalPlanOnly w path g = (g, Some err)).
Proof.
  intros planPath. split; [reflexivity |]. split; [|split].
  - unfold Collector.collectMetrics. fold planPath.
    destruct (Collector.detectDrift w _) as [drift out].
    destruct (ReadFile w planPath) as [err | data].
    + cbn [Collector.zeroPlan Collector.ResourceChanges Collector.Timestamp
           Collector.count fold_left String.eqb negb
           Collector.total Collector.toAdd Collector.toChange Collector.toDestroy
           Collector.toImport].
      destruct (String.eqb (Getenv w "TERRAFORM_APPLY_LOG_PATH") ""); cbn [negb].
      * cbn [mbind option_bind].
        destruct (Collector.isTerraformRunSuccessful w _);
          (eexists; split; [reflexivity |]; split; [reflexivity |]);
          intros _; cbn zeta; repeat split; lookup_gauge.
      * destruct (parseLogStats_total w (Getenv w "TERRAFORM_APPLY_LOG_PATH")) as [st ->].
        cbn [mbind option_bind].
        destruct (Collector.isTerraformRunSuccessful w _);
          (eexists; split; [reflexivity |]; split; [reflexivity |]);
          intros _; cbn zeta; repeat split; lookup_gauge.
    + destruct (String.eqb (Getenv w "TERRAFORM_APPLY_LOG_PATH") ""); cbn [negb].
      * cbn [mbind option_bind].
        eexists; split; [reflexivity |]; split; [reflexivity |].
        intros [err H]; discriminate.
      * destruct (parseLogStats_total w (Getenv w "TERRAFORM_APPLY_LOG_PATH")) as [st ->].
        cbn [mbind option_bind].
        eexists; split; [reflexivity |]; split; [reflexivity |].
        intros [err H]; discriminate.
  - intros err H. unfold PlanExporter.parseTerraformPlan. now rewrite H.
  - intros data plan err H1 H2. unfold PlanExporter.parseTerraformPlan.
    now rewrite H1, H2.
Qed.

End PlanFailures.

Section PlanFailuresSample.

(** C3 fails on the code.  With an apply log in place, [collectMetrics]
    does exactly the same on a truncated plan, whose decoding fails, as
    on an absent plan, and returns no error: the decode error reaches
    nobody.  And [parseTerraformPlan] does not take an absent plan for a
    document without resource changes: it returns the error of the read,
    where the empty document gives no error.  The run pushes under a job
    name to a gateway that is named, so the push can be accepted. *)
Lemma decode_error_not_surfaced :
  snd (sampleUnmarshal "{") = Some (DecodeError "unexpected end of JSON input")
  /\ Collector.collectMetrics sampleUnmarshal sampleParseRFC3339 truncatedPlanWorld =
     Collector.collectMetrics sampleUnmarshal sampleParseRFC3339 absentPlanWorld
  /\ Collector.returned <$>
       Collector.collectMetrics sampleUnmarshal sampleParseRFC3339 truncatedPlanWorld
     = Some None
  /\ snd (PlanExporter.parseTerraformPlan sampleUnmarshalPlanOnly absentPlanWorld
            "plan.json" PlanExporter.initial)
     = Some (PathError "open" "plan.json" "no such file or directory")
  /\ snd (PlanExporter.parseTerraformPlan sampleUnmarshalPlanOnly emptyPlanWorld
            "plan.json" PlanExporter.initial)
     = None
  /\ Collector.pushJob <$>
       Collector.collectMetrics sampleUnmarshal sampleParseRFC3339 truncatedPlanWorld
     = Some "terraform"
  /\ Collector.pushURL <$>
       Collector.collectMetrics sampleUnmarshal sampleParseRFC3339 truncatedPlanWorld
     = Some "http://pushgateway.example:9091".
Proof. repeat split; vm_compute; reflexivity. Qed.

End PlanFailuresSample.

Section ApplySegments.

Lemma setBucket_unknown (kw : string) (count : Z) (st : Collector.Stats) :
  ~ keyword kw -> setBucket kw count st = st.
Proof.
  unfold keyword, setBucket. intros H.
  destruct (String.eqb_spec kw "added") as [-> | _]; [exfalso; tauto |].
  destruct (String.eqb_spec kw "changed") as [-> | _]; [exfalso; tauto |].
  destruct (String.eqb_spec kw "destroyed") as [-> | _]; [exfalso; tauto |].
  destruct (String.eqb_spec kw "imported") as [-> | _]; [exfalso; tauto |].
  reflexivity.
Qed.

(** What [statStep] does, by the tokens of the segment. *)
Lemma statStep_tokens (st : Collector.Stats) (stat : string) :
  Collector.statStep st stat =
  match Go.Fields (Go.TrimSpace stat) with
  | tok :: kw :: _ => Some (setBucket kw (fst (Go.Atoi tok)) st)
  | _ => Some st
  end.
Proof.
  unfold Collector.statStep.
  destruct (Go.Fields (Go.TrimSpace stat)) as [|tok [|kw parts]]; try reflexivity.
  replace (Z.of_nat (length (tok :: kw :: parts)) <? 2) with false
    by (symmetry; apply Z.ltb_ge; cbn [length]; lia).
  simpl. destruct (Go.Atoi tok). reflexivity.
Qed.

(** What [strconv.Atoi] returns besides an error: 0 when the string is
    not a number, and the nearest bound when the number is out of range. *)
Lemma Atoi_failure (s : string) :
  match Go.Atoi s with
  | (n, Some Go.ErrSyntax) => n = 0
  | (n, Some Go.ErrRange) => n = Go.maxInt \/ n = Go.minInt
  | (_, None) => True
  end.
Proof.
  unfold Go.Atoi. destruct ((0 <? Go.len s) && (Go.len s <? 19)).
  - destruct s as [|c t]; [reflexivity |].
    destruct ((Ascii.eqb c "-" || Ascii.eqb c "+") && _); [reflexivity |].
    destruct (Go.atoiLoop _ 0); [exact I | reflexivity].
  - unfold Go.ParseInt. destruct s as [|c t]; [reflexivity |].
    destruct (Go.ParseUint _) as [un [[] |]]; [reflexivity | |].
    + destruct (negb (Ascii.eqb c "-") && (un >=? 2 ^ 63)); [now left |].
      destruct (Ascii.eqb c "-" && (un >? 2 ^ 63)); [now right | exact I].
    + destruct (negb (Ascii.eqb c "-") && (un >=? 2 ^ 63)); [now left |].
      destruct (Ascii.eqb c "-" && (un >? 2 ^ 63)); [now right | exact I].
Qed.

(** C2, as the code has it.  A segment never raises an error.  It is
    skipped, no bucket changing, when it has fewer than two tokens or
    when its second token is none of the four keywords.  When the second
    token is a keyword, the bucket of that keyword is overwritten with
    what [Atoi] returns for the first token, also when the first token is
    not an integer: then the bucket becomes 0 (or, for a number out of
    range, the nearest bound of [int]), and the other buckets keep their
    values. *)
Theorem unparseable_segment (st : Collector.Stats) (stat : string) :
  let parts := Go.Fields (Go.TrimSpace stat) in
  is_Some (Collector.statStep st stat)
  /\ ((length parts < 2)%nat -> Collector.statStep st stat = Some st)
  /\ (forall kw : string, parts !! 1%nat = Some kw -> ~ keyword kw ->
        Collector.statStep st stat = Some st)
  /\ (forall tok kw : string, parts !! 0%nat = Some tok -> parts !! 1%nat = Some kw ->
        keyword kw ->
        Collector.statStep st stat = Some (setBucket kw (fst (Go.Atoi tok)) st)
        /\ (snd (Go.Atoi tok) = Some Go.ErrSyntax -> fst (Go.Atoi tok) = 0)
        /\ (snd (Go.Atoi tok) = Some Go.ErrRange ->
            fst (Go.Atoi tok) = Go.maxInt \/ fst (Go.Atoi tok) = Go.minInt)).
Proof.
  intros parts. split; [apply statStep_total |].
  rewrite statStep_tokens. fold parts.
  destruct parts as [|tok' [|kw' rest]]; simpl.
  - repeat split; try reflexivity; intros; discriminate.
  - repeat split; try reflexivity; intros; discriminate.
  - split; [intros H; lia |]. split.
    + intros kw [= ->] Hk. now rewrite setBucket_unknown.
    + intros tok kw [= ->] [= ->] _. split; [reflexivity |].
      pose proof (Atoi_failure tok) as H. destruct (Go.Atoi tok) as [n [[] |]]; simpl;
        split; intros; try discriminate; assumption.
Qed.

(** C2 fails on the code.  In the segment [x added] the leading token is
    not an integer, yet the segment is not skipped: it sets the added
    count, which the segment before it had put at 3, to 0. *)
Lemma malformed_count_overwrites :
  Go.Fields (Go.TrimSpace " x added") = ["x"; "added"]
  /\ Go.Atoi "x" = (0, Some Go.ErrSyntax)
  /\ Collector.statStep
       {| Collector.added := 3; Collector.changed := 0;
          Collector.destroyed := 0; Collector.imported := 0 |} " x added"
     = Some Collector.noStats
  /\ Collector.lineStep Collector.noStats "Apply complete! Resources: 3 added"
     = Some {| Collector.added := 3; Collector.changed := 0;
               Collector.destroyed := 0; Collector.imported := 0 |}
  /\ Collector.lineStep Collector.noStats "Apply complete! Resources: 3 added, x added"
     = Some Collector.noStats.
Proof. repeat split; vm_compute; reflexivity. Qed.

End ApplySegments.

Section ApplySummary.

Lemma forEach_app {A S : Type} (body : S -> A -> option S) (l1 l2 : list A) (s : S) :
  Collector.forEach body s (l1 ++ l2)%list =
  Collector.forEach body s l1 ≫= fun s' => Collector.forEach body s' l2.
Proof.
  revert s. induction l1 as [|x l1 IH]; intros s; simpl; [reflexivity |].
  destruct (body s x) as [s' |]; simpl; [apply IH | reflexivity].
Qed.

(** A line without the marker leaves the counts alone. *)
Lemma lineStep_unmarked (st : Collector.Stats) (line : string) :
  ~ occurs "Apply complete!" line -> Collector.lineStep st line = Some st.
Proof.
  intros H. apply Contains_false in H. unfold Collector.lineStep. now rewrite H.
Qed.

Lemma forEach_unmarked (st : Collector.Stats) (lines : list string) :
  Forall (fun line => ~ occurs "Apply complete!" line) lines ->
  Collector.forEach Collector.lineStep st lines = Some st.
Proof.
  induction 1 as [|line lines Hl _ IH]; simpl; [reflexivity |].
  rewrite lineStep_unmarked by exact Hl. exact IH.
Qed.

(** C4. On a transcript whose one line with ["Apply complete!"] is
    [Apply complete! Resources: 2 added, 1 changed, 0 destroyed.],
    whatever other lines stand before and after it, [parseLogStats]
    returns added 2, changed 1, destroyed 0 and imported 0. *)
Theorem apply_summary_counts (w : World) (path data : string)
    (before after : list string) :
  Open w path = inr data ->
  Go.scanLines data = (before ++ summaryLine :: after)%list ->
  Forall (fun line => ~ occurs "Apply complete!" line) (before ++ after)%list ->
  Collector.parseLogStats w path =
  Some {| Collector.added := 2; Collector.changed := 1;
          Collector.destroyed := 0; Collector.imported := 0 |}.
Proof.
  intros Hopen Hlines Hother. apply Forall_app in Hother as [Hb Ha].
  unfold Collector.parseLogStats. rewrite Hopen, Hlines, forEach_app.
  rewrite forEach_unmarked by exact Hb. cbn [mbind option_bind Collector.forEach].
  replace (Collector.lineStep Collector.noStats summaryLine)
    with (Some {| Collector.added := 2; Collector.changed := 1;
                  Collector.destroyed := 0; Collector.imported := 0 |})
    by (vm_compute; reflexivity).
  cbn [mbind option_bind]. apply forEach_unmarked, Ha.
Qed.

(** The transcript that is the summary line and nothing else. *)
Lemma summary_line_alone :
  Collector.parseLogStats absentPlanWorld "apply.log" =
  Some {| Collector.added := 2; Collector.changed := 1;
          Collector.destroyed := 0; Collector.imported := 0 |}.
Proof. vm_compute. reflexivity. Qed.

(** An apply log with the summary line between other lines. *)
Lemma apply_summary_counts_sample :
  Collector.parseLogStats applyLogWorld "apply.log" =
  Some {| Collector.added := 2; Collector.changed := 1;
          Collector.destroyed := 0; Collector.imported := 0 |}.
Proof.
  apply (apply_summary_counts applyLogWorld "apply.log" applyLogText
           ["aws_instance.web: Creating...";
            "aws_instance.web: Creation complete after 32s [id=i-0abc]"; ""]
           [""; "Outputs:"]).
  - vm_compute; reflexivity.
  - vm_compute; reflexivity.
  - repeat constructor; apply Contains_false; vm_compute; reflexivity.
Defined.

End ApplySummary.

(** ** The summary line of the upstream tool *)

Section SplitFacts.

Lemma hasByte_app (c : ascii) (a b : string) :
  hasByte c (a ++ b) = hasByte c a || hasByte c b.
Proof.
  induction a as [|x a IH]; simpl; [reflexivity |]. now rewrite IH, orb_assoc.
Qed.

Lemma prefix_byte (c x : ascii) (t : string) :
  String.prefix (String c "") (String x t) = Ascii.eqb x c.
Proof.
  simpl. destruct (Ascii.ascii_dec c x) as [-> | Hne].
  - rewrite Ascii.eqb_refl. now destruct t.
  - symmetry. apply Ascii.eqb_neq. congruence.
Qed.

Lemma genSplit_byte_absent (c : ascii) (s : string) :
  hasByte c s = false -> Go.genSplit (String c "") 0 s = [s].
Proof.
  induction s as [|x t IH]; [reflexivity |].
  cbn [hasByte]. intros H. apply orb_false_iff in H as [Hx Ht].
  cbn [Go.genSplit]. rewrite prefix_byte, Hx, (IH Ht). reflexivity.
Qed.

Lemma genSplit_byte_app (c : ascii) (a b : string) :
  hasByte c a = false ->
  Go.genSplit (String c "") 0 (a ++ String c b) = a :: Go.genSplit (String c "") 0 b.
Proof.
  induction a as [|x t IH]; intros H.
  - cbn [String.append Go.genSplit]. rewrite prefix_byte, Ascii.eqb_refl. reflexivity.
  - cbn [hasByte] in H. apply orb_false_iff in H as [Hx Ht].
    cbn [String.append Go.genSplit]. rewrite prefix_byte, Hx, (IH Ht). reflexivity.
Qed.

(** Splitting on a byte that does not occur gives the string back. *)
Lemma Split_byte_absent (c : ascii) (s : string) :
  hasByte c s = false -> Go.Split s (String c "") = [s].
Proof. apply genSplit_byte_absent. Qed.

(** Splitting on a byte cuts at its first occurrence and goes on behind
    it. *)
Lemma Split_byte_app (c : ascii) (a b : string) :
  hasByte c a = false ->
  Go.Split (a ++ String c b) (String c "") = a :: Go.Split b (String c "").
Proof. apply genSplit_byte_app. Qed.

End SplitFacts.

Section FieldsFacts.

Lemma runes_ascii_cons (x : ascii) (t : string) :
  (Go.byte_val x <? 128) = true ->
  Go.runes (String x t) = (Go.byte_val x, String x "") :: Go.runes t.
Proof.
  intros H. cbn [Go.runes]. unfold Go.DecodeRune. rewrite H. reflexivity.
Qed.

Lemma runes_ascii (s : string) :
  asciiOnly s = true -> Go.runes s = byteRunes s.
Proof.
  induction s as [|x t IH]; intros H; [reflexivity |].
  cbn [asciiOnly] in H. apply andb_true_iff in H as [Hx Ht].
  rewrite runes_ascii_cons by exact Hx. cbn [byteRunes]. now rewrite IH.
Qed.

Lemma asciiOnly_app (a b : string) :
  asciiOnly (a ++ b) = asciiOnly a && asciiOnly b.
Proof.
  induction a as [|x a IH]; [reflexivity |]. cbn. now rewrite IH, andb_assoc.
Qed.

Lemma plainToken_ascii (s : string) : plainToken s = true -> asciiOnly s = true.
Proof.
  induction s as [|x t IH]; [reflexivity |]. cbn [plainToken asciiOnly].
  intros H. apply andb_true_iff in H as [Hx Ht].
  apply andb_true_iff in Hx as [Hx _]. now rewrite Hx, IH.
Qed.

Lemma bytes_of_app (l1 l2 : list (Z * string)) :
  Go.bytes_of (l1 ++ l2)%list = Go.bytes_of l1 ++ Go.bytes_of l2.
Proof.
  induction l1 as [|[r b] l1 IH]; [reflexivity |].
  cbn [app Go.bytes_of fold_right snd]. fold (Go.bytes_of (l1 ++ l2)%list).
  fold (Go.bytes_of l1). now rewrite IH, append_assoc.
Qed.

Lemma bytes_of_byteRunes (s : string) : Go.bytes_of (byteRunes s) = s.
Proof.
  induction s as [|x t IH]; [reflexivity |].
  cbn [byteRunes Go.bytes_of fold_right snd]. fold (Go.bytes_of (byteRunes t)).
  now rewrite IH.
Qed.

Lemma byteRunes_app (a b : string) :
  byteRunes (a ++ b) = (byteRunes a ++ byteRunes b)%list.
Proof. induction a as [|x a IH]; [reflexivity |]. cbn. now rewrite IH. Qed.

Lemma plainToken_app (a b : string) :
  plainToken (a ++ b) = plainToken a && plainToken b.
Proof.
  induction a as [|x a IH]; [reflexivity |]. cbn. now rewrite IH, andb_assoc.
Qed.

(** A string that is not empty has a last byte. *)
Lemma string_snoc (s : string) :
  s <> "" -> exists (s' : string) (y : ascii), s = s' ++ String y "".
Proof.
  induction s as [|x t IH]; [congruence |]. intros _. destruct t as [|x' t'].
  - now exists "", x.
  - destruct IH as (s' & y & E); [discriminate |]. exists (String x s'), y.
    cbn. now rewrite E.
Qed.

(** The loop of [Fields] takes a white-space-free ASCII token in one go. *)
Lemma fieldsLoop_plain (tok rest cur : string) :
  plainToken tok = true ->
  Go.fieldsLoop (Go.runes (tok ++ rest)) cur = Go.fieldsLoop (Go.runes rest) (cur ++ tok).
Proof.
  revert cur. induction tok as [|x t IH]; intros cur H.
  - cbn [String.append]. now rewrite append_nil_r.
  - cbn [plainToken] in H. apply andb_true_iff in H as [Hx Ht].
    apply andb_true_iff in Hx as [Hx Hs]. apply negb_true_iff in Hs.
    cbn [String.append]. rewrite runes_ascii_cons by exact Hx.
    cbn [Go.fieldsLoop]. rewrite Hs, (IH _ Ht), append_assoc. reflexivity.
Qed.

Lemma eqb_empty (s : string) : s <> "" -> String.eqb s "" = false.
Proof. intros H. now apply String.eqb_neq. Qed.

(** Two plain tokens with a blank between them are two fields. *)
Lemma Fields_two (tok kw : string) :
  plainToken tok = true -> plainToken kw = true -> tok <> "" -> kw <> "" ->
  Go.Fields (tok ++ " " ++ kw) = [tok; kw].
Proof.
  intros Ht Hk Hte Hke. unfold Go.Fields.
  rewrite fieldsLoop_plain by exact Ht. cbn [String.append].
  rewrite runes_ascii_cons by reflexivity. cbn [Go.fieldsLoop].
  change (Go.IsSpace (Go.byte_val " ")) with true. cbn iota.
  rewrite (eqb_empty tok Hte).
  rewrite <- (append_nil_r kw) at 1. rewrite fieldsLoop_plain by exact Hk.
  cbn [Go.runes Go.fieldsLoop String.append]. now rewrite (eqb_empty kw Hke).
Qed.

Lemma dropSpaces_head (rb : Z * string) (l : list (Z * string)) :
  Go.space_rune rb = false -> Go.dropSpaces (rb :: l) = rb :: l.
Proof. intros H. cbn [Go.dropSpaces]. now rewrite H. Qed.

(** [TrimSpace] takes the leading blank off a clause and nothing else. *)
Lemma TrimSpace_clause (tok kw : string) :
  plainToken tok = true -> plainToken kw = true -> tok <> "" -> kw <> "" ->
  Go.TrimSpace (clauseOf tok kw) = tok ++ " " ++ kw.
Proof.
  intros Ht Hk Hte Hke. unfold Go.TrimSpace, clauseOf.
  destruct tok as [|t0 tok']; [congruence |].
  destruct (string_snoc kw Hke) as (kw' & y & ->).
  rewrite plainToken_app in Hk. apply andb_true_iff in Hk as [Hk' Hy].
  cbn [plainToken] in Ht, Hy. apply andb_true_iff in Ht as [Ht0 Ht'].
  rewrite andb_true_r in Hy.
  assert (Hascii : asciiOnly (String t0 (tok' ++ String " " (kw' ++ String y ""))) = true).
  { apply plainToken_ascii in Ht', Hk'. apply andb_true_iff in Ht0 as [Ht0 _].
    apply andb_true_iff in Hy as [Hy _].
    cbn [asciiOnly]. rewrite asciiOnly_app. cbn [asciiOnly]. rewrite asciiOnly_app.
    cbn [asciiOnly]. now rewrite Ht0, Ht', Hk', Hy. }
  cbn [String.append]. rewrite runes_ascii_cons by reflexivity.
  change (Go.dropSpaces ((Go.byte_val " ", " ") :: ?l)) with (Go.dropSpaces l).
  set (body := String t0 (tok' ++ String " " (kw' ++ String y ""))).
  assert (Hbody : Go.runes body =
                  ((Go.byte_val t0, String t0 "")
                   :: byteRunes (tok' ++ String " " kw') ++ [(Go.byte_val y, String y "")])%list).
  { subst body.
    replace (String t0 (tok' ++ String " " (kw' ++ String y "")))
      with (String t0 (tok' ++ String " " kw') ++ String y "")
      by (cbn [String.append]; rewrite append_assoc; reflexivity).
    rewrite runes_ascii.
    - rewrite byteRunes_app. reflexivity.
    - cbn [String.append]. rewrite append_assoc. exact Hascii. }
  rewrite Hbody.
  assert (Hs0 : Go.space_rune (Go.byte_val t0, String t0 "") = false).
  { unfold Go.space_rune; cbn [fst]. apply andb_true_iff in Ht0 as [_ H].
    now apply negb_true_iff in H. }
  assert (Hsy : Go.space_rune (Go.byte_val y, String y "") = false).
  { unfold Go.space_rune; cbn [fst]. apply andb_true_iff in Hy as [_ H].
    now apply negb_true_iff in H. }
  rewrite dropSpaces_head by exact Hs0.
  rewrite app_comm_cons, rev_unit, dropSpaces_head by exact Hsy.
  rewrite <- rev_unit, rev_involutive, <- app_comm_cons, <- Hbody.
  subst body. clear Hbody.
  rewrite runes_ascii by exact Hascii. apply bytes_of_byteRunes.
Qed.

End FieldsFacts.

Section SummaryLine.

Lemma isDigit_plain (x : ascii) : isDigit x = true -> plainByte x = true.
Proof.
  unfold isDigit, plainByte. intros H. apply andb_true_iff in H as [H1 H2].
  apply Z.leb_le in H1, H2.
  assert (E : Go.byte_val x = 48 \/ Go.byte_val x = 49 \/ Go.byte_val x = 50
              \/ Go.byte_val x = 51 \/ Go.byte_val x = 52 \/ Go.byte_val x = 53
              \/ Go.byte_val x = 54 \/ Go.byte_val x = 55 \/ Go.byte_val x = 56
              \/ Go.byte_val x = 57) by lia.
  repeat (destruct E as [-> | E]; [reflexivity |]). now rewrite E.
Qed.

Lemma allDigits_plain (s : string) : allDigits s = true -> plainToken s = true.
Proof.
  induction s as [|x t IH]; [reflexivity |]. cbn [allDigits plainToken].
  intros H. apply andb_true_iff in H as [Hx Ht]. now rewrite (isDigit_plain x Hx), IH.
Qed.

(** A byte that is not a digit is not in a run of digits. *)
Lemma allDigits_noByte (c : ascii) (s : string) :
  isDigit c = false -> allDigits s = true -> hasByte c s = false.
Proof.
  intros Hc. induction s as [|x t IH]; [reflexivity |]. cbn [allDigits hasByte].
  intros H. apply andb_true_iff in H as [Hx Ht]. rewrite (IH Ht), orb_false_r.
  apply Ascii.eqb_neq. intros ->. congruence.
Qed.

(** A keyword with something behind it is not a keyword. *)
Lemma keyword_suffix (kw suffix : string) :
  keyword kw -> suffix <> "" -> ~ keyword (kw ++ suffix).
Proof.
  unfold keyword.
  intros [-> | [-> | [-> | ->]]] Hs [H | [H | [H | H]]]; cbn in H; congruence.
Qed.

(** A clause of two plain tokens writes the count into the bucket its
    second token names, if it names one. *)
Lemma statStep_clause (st : Collector.Stats) (tok kw : string) :
  plainToken tok = true -> plainToken kw = true -> tok <> "" -> kw <> "" ->
  Collector.statStep st (clauseOf tok kw) = Some (setBucket kw (fst (Go.Atoi tok)) st).
Proof.
  intros Ht Hk Hte Hke.
  rewrite statStep_tokens, TrimSpace_clause, Fields_two by assumption. reflexivity.
Qed.

Lemma lastByte_app_r (a b : string) : b <> "" -> Go.lastByte (a ++ b) = Go.lastByte b.
Proof.
  intros Hb. induction a as [|x a IH]; [reflexivity |].
  cbn [String.append Go.lastByte]. destruct (a ++ b) eqn:E; [|exact IH].
  destruct a; cbn in E; [congruence | discriminate].
Qed.

Lemma app_nonempty_r (a b : string) : b <> "" -> a ++ b <> "".
Proof. intros Hb. destruct a; cbn; [exact Hb | discriminate]. Qed.

Lemma summaryOf_lastByte (a c n : string) :
  Go.lastByte (summaryOf a c n) = Some "."%char.
Proof.
  unfold summaryOf, clauseOf.
  repeat (rewrite lastByte_app_r by (repeat apply app_nonempty_r; discriminate)).
  reflexivity.
Qed.

(** The count of a clause aside, its bytes are those of its two blanks
    and its keyword. *)
Lemma clauseOf_noByte (x : ascii) (tok kw : string) :
  isDigit x = false -> allDigits tok = true ->
  hasByte x (clauseOf tok kw) = hasByte x " " || hasByte x kw.
Proof.
  intros Hx Ht. unfold clauseOf.
  rewrite !hasByte_app, (allDigits_noByte x tok Hx Ht).
  destruct (hasByte x " "), (hasByte x kw); reflexivity.
Qed.

Lemma summaryOf_marked (a c n : string) : occurs "Apply complete!" (summaryOf a c n).
Proof.
  exists "", (" Resources:" ++ clauseOf a "added" ++ "," ++ clauseOf c "changed"
              ++ "," ++ clauseOf n "destroyed.").
  reflexivity.
Qed.

(** How the two calls of [Split] cut the summary line. *)
Lemma summaryOf_fields (a c n : string) :
  decimal a -> decimal c -> decimal n ->
  Go.Split (summaryOf a c n) ":" =
  ["Apply complete! Resources";
   clauseOf a "added" ++ "," ++ clauseOf c "changed" ++ "," ++ clauseOf n "destroyed."].
Proof.
  intros [_ Ha] [_ Hc] [_ Hn].
  change (summaryOf a c n)
    with ("Apply complete! Resources"
          ++ String ":" (clauseOf a "added" ++ "," ++ clauseOf c "changed" ++ ","
                         ++ clauseOf n "destroyed.")).
  rewrite Split_byte_app by reflexivity. f_equal.
  apply Split_byte_absent.
  rewrite !hasByte_app, !clauseOf_noByte by (reflexivity || assumption).
  reflexivity.
Qed.

Lemma summaryOf_stats (a c n : string) :
  decimal a -> decimal c -> decimal n ->
  Go.Split (clauseOf a "added" ++ "," ++ clauseOf c "changed" ++ ","
            ++ clauseOf n "destroyed.") "," =
  [clauseOf a "added"; clauseOf c "changed"; clauseOf n "destroyed."].
Proof.
  intros [_ Ha] [_ Hc] [_ Hn].
  change (clauseOf a "added" ++ "," ++ clauseOf c "changed" ++ ","
          ++ clauseOf n "destroyed.")
    with (clauseOf a "added"
          ++ String "," (clauseOf c "changed" ++ String "," (clauseOf n "destroyed."))).
  rewrite Split_byte_app
    by (rewrite clauseOf_noByte by (reflexivity || assumption); reflexivity).
  rewrite Split_byte_app
    by (rewrite clauseOf_noByte by (reflexivity || assumption); reflexivity).
  rewrite Split_byte_absent
    by (rewrite clauseOf_noByte by (reflexivity || assumption); reflexivity).
  reflexivity.
Qed.

(** The scanner delivers the summary line as it is, unless it is too
    long for the buffer. *)
Lemma summaryOf_scanned (a c n : string) :
  decimal a -> decimal c -> decimal n ->
  Go.scanLines (summaryOf a c n) = [summaryOf a c n]
  \/ Go.scanLines (summaryOf a c n) = [].
Proof.
  intros [_ Ha] [_ Hc] [_ Hn]. unfold Go.scanLines, Go.newline.
  rewrite Split_byte_absent.
  - cbn [Go.scanTokens]. destruct (String.eqb (summaryOf a c n) ""); [now right |].
    destruct (Go.MaxScanTokenSize <=? Go.len (summaryOf a c n)); [now right |].
    left. unfold Go.dropCR. rewrite summaryOf_lastByte. reflexivity.
  - unfold summaryOf. rewrite !hasByte_app, !clauseOf_noByte by (reflexivity || assumption).
    reflexivity.
Qed.

End SummaryLine.

Section PeriodKeyword.

Lemma decimal_plain (s : string) : decimal s -> plainToken s = true /\ s <> "".
Proof. intros [Hne Hd]. split; [now apply allDigits_plain | exact Hne]. Qed.

(** The line of C4 is the summary line for the counts 2, 1 and 0. *)
Lemma summaryOf_sample : summaryOf "2" "1" "0" = summaryLine.
Proof. reflexivity. Qed.

(** What one summary line does to the counts: added and changed are
    set, destroyed and imported stay. *)
Lemma lineStep_summaryOf (st : Collector.Stats) (a c n : string) :
  decimal a -> decimal c -> decimal n ->
  Collector.lineStep st (summaryOf a c n) =
  Some {| Collector.added := fst (Go.Atoi a); Collector.changed := fst (Go.Atoi c);
          Collector.destroyed := Collector.destroyed st;
          Collector.imported := Collector.imported st |}.
Proof.
  intros Ha Hc Hn. unfold Collector.lineStep.
  replace (Go.Contains (summaryOf a c n) "Apply complete!") with true
    by (symmetry; apply Contains_spec, summaryOf_marked).
  rewrite summaryOf_fields by assumption.
  cbn [length Z.of_nat lookup list_lookup]. change (Z.of_nat 2 <? 2) with false.
  cbn [mbind option_bind]. rewrite summaryOf_stats by assumption.
  destruct (decimal_plain a Ha) as [Hpa Hea], (decimal_plain c Hc) as [Hpc Hec],
    (decimal_plain n Hn) as [Hpn Hen].
  cbn [Collector.forEach].
  rewrite statStep_clause by (assumption || reflexivity || discriminate).
  cbn [mbind option_bind].
  rewrite statStep_clause by (assumption || reflexivity || discriminate).
  cbn [mbind option_bind].
  rewrite statStep_clause by (assumption || reflexivity || discriminate).
  reflexivity.
Qed.

(** C10. The keyword of a segment is compared for equality with the
    four keywords, so a keyword with anything behind it, a period for
    one, names no bucket and the segment changes nothing.  For the
    summary line as the tool writes it, ending in [<N> destroyed.], this
    means: whatever the counts are, the clause [<N> destroyed.] leaves
    the counts as they were, the line sets added and changed and leaves
    destroyed (and imported) alone, and on a transcript that is this
    line, or that has it as its one line with ["Apply complete!"],
    [parseLogStats] returns destroyed 0. *)
Theorem period_keyword_not_routed (st : Collector.Stats) (a c n : string)
    (w : World) (path : string) :
  decimal a -> decimal c -> decimal n ->
  (forall stat tok kw suffix rest,
     Go.Fields (Go.TrimSpace stat) = tok :: (kw ++ suffix) :: rest ->
     keyword kw -> suffix <> "" -> Collector.statStep st stat = Some st)
  /\ Collector.statStep st (clauseOf n "destroyed.") = Some st
  /\ Collector.lineStep st (summaryOf a c n) =
     Some {| Collector.added := fst (Go.Atoi a); Collector.changed := fst (Go.Atoi c);
             Collector.destroyed := Collector.destroyed st;
             Collector.imported := Collector.imported st |}
  /\ (Open w path = inr (summaryOf a c n) ->
      exists st', Collector.parseLogStats w path = Some st'
                  /\ Collector.destroyed st' = 0)
  /\ (forall (data : string) (before after : list string),
        Open w path = inr data ->
        Go.scanLines data = (before ++ summaryOf a c n :: after)%list ->
        Forall (fun line => ~ occurs "Apply complete!" line) (before ++ after)%list ->
        Collector.parseLogStats w path =
        Some {| Collector.added := fst (Go.Atoi a); Collector.changed := fst (Go.Atoi c);
                Collector.destroyed := 0; Collector.imported := 0 |}).
Proof.
  intros Ha Hc Hn. split; [|split; [|split; [|split]]].
  - intros stat tok kw suffix rest Hparts Hk Hs.
    rewrite statStep_tokens, Hparts. f_equal.
    apply setBucket_unknown, keyword_suffix; assumption.
  - destruct (decimal_plain n Hn) as [Hpn Hen].
    rewrite statStep_clause by (assumption || reflexivity || discriminate).
    reflexivity.
  - now apply lineStep_summaryOf.
  - intros Hopen. unfold Collector.parseLogStats. rewrite Hopen.
    destruct (summaryOf_scanned a c n Ha Hc Hn) as [-> | ->].
    + cbn [Collector.forEach]. rewrite lineStep_summaryOf by assumption.
      cbn [mbind option_bind]. eexists. split; reflexivity.
    + cbn [Collector.forEach]. eexists. split; reflexivity.
  - intros data before after Hopen Hlines Hother.
    apply Forall_app in Hother as [Hb Hafter].
    unfold Collector.parseLogStats. rewrite Hopen, Hlines, forEach_app.
    rewrite forEach_unmarked by exact Hb. cbn [mbind option_bind Collector.forEach].
    rewrite lineStep_summaryOf by assumption. cbn [mbind option_bind].
    apply forEach_unmarked, Hafter.
Qed.

Lemma period_keyword_not_routed_sample :
  Collector.statStep Collector.noStats (clauseOf "5" "destroyed.") = Some Collector.noStats
  /\ Collector.lineStep Collector.noStats (summaryOf "2" "1" "5") =
     Some {| Collector.added := fst (Go.Atoi "2"); Collector.changed := fst (Go.Atoi "1");
             Collector.destroyed := 0; Collector.imported := 0 |}
  /\ exists st', Collector.parseLogStats fiveDestroyedWorld "apply.log" = Some st'
                 /\ Collector.destroyed st' = 0.
Proof.
  destruct (period_keyword_not_routed Collector.noStats "2" "1" "5"
              fiveDestroyedWorld "apply.log") as (_ & Hclause & Hline & Hlog & _);
    try (split; [discriminate | reflexivity]).
  split; [exact Hclause |]. split; [exact Hline |]. apply Hlog. vm_compute. reflexivity.
Defined.

End PeriodKeyword.


(** ** The rest of the code *)

Section Counting.

(** A counter that a loop increments on the elements with [P], and on no
    others, ends as its start plus the number of those elements, as long
    as it cannot overflow. *)
Lemma counter_fold {S A : Type} (step : S -> A -> S) (get : S -> Z)
    (P : A -> Prop) `{forall a, Decision (P a)} :
  (forall s a, get (step s a) = if decide (P a) then Go.incr (get s) else get s) ->
  forall (l : list A) (s : S),
    0 <= get s -> get s + Z.of_nat (length l) <= Go.maxInt ->
    get (fold_left step l s) = get s + Z.of_nat (length (filter P l)).
Proof.
  intros Hstep. induction l as [|a l IH]; intros s H0 Hmax; simpl.
  - lia.
  - rewrite filter_cons. simpl length in Hmax.
    assert (Hs : get (step s a) = if decide (P a) then get s + 1 else get s).
    { rewrite Hstep. destruct (decide (P a)); [|reflexivity].
      apply incr_succ. unfold Go.minInt, Go.maxInt in *. lia. }
    rewrite IH; rewrite Hs; destruct (decide (P a)); simpl length; lia.
Qed.

Lemma counter_fold_all {S A : Type} (step : S -> A -> S) (get : S -> Z) :
  (forall s a, get (step s a) = Go.incr (get s)) ->
  forall (l : list A) (s : S),
    0 <= get s -> get s + Z.of_nat (length l) <= Go.maxInt ->
    get (fold_left step l s) = get s + Z.of_nat (length l).
Proof.
  intros Hstep. induction l as [|a l IH]; intros s H0 Hmax; simpl.
  - lia.
  - simpl length in Hmax.
    assert (Hs : get (step s a) = get s + 1).
    { rewrite Hstep. apply incr_succ. unfold Go.minInt, Go.maxInt in *. lia. }
    rewrite IH; rewrite Hs; lia.
Qed.

Lemma contains_hasAction (a : string) (rc : ResourceChange) (x y : Z) :
  (if contains (Actions (Change rc)) a then x else y) =
  if decide (a ∈ Actions (Change rc)) then x else y.
Proof.
  rewrite contains_decide.
  destruct (decide (a ∈ Actions (Change rc))) as [H | H].
  - now rewrite bool_decide_eq_true_2.
  - now rewrite bool_decide_eq_false_2.
Qed.

(** The counters of the plan-only exporter after its loop. *)
Lemma plan_count (rcs : list ResourceChange) :
  Z.of_nat (length rcs) <= Go.maxInt ->
  PlanExporter.count rcs =
  {| PlanExporter.total := Z.of_nat (length rcs);
     PlanExporter.added := occurrences "create" rcs;
     PlanExporter.changed := occurrences "update" rcs;
     PlanExporter.destroyed := occurrences "delete" rcs;
     PlanExporter.drift := singleUpdates rcs |}.
Proof.
  intros Hlen. unfold PlanExporter.count, occurrences, singleUpdates.
  set (c0 := {| PlanExporter.total := 0; PlanExporter.added := 0;
                PlanExporter.changed := 0; PlanExporter.destroyed := 0;
                PlanExporter.drift := 0 |}).
  destruct (fold_left PlanExporter.tally rcs c0) as [t a c d dr] eqn:E.
  f_equal.
  - change t with (PlanExporter.total {| PlanExporter.total := t; PlanExporter.added := a;
      PlanExporter.changed := c; PlanExporter.destroyed := d; PlanExporter.drift := dr |}).
    rewrite <- E. rewrite (counter_fold_all PlanExporter.tally PlanExporter.total);
      [reflexivity | reflexivity | simpl; lia | simpl; lia].
  - change a with (PlanExporter.added {| PlanExporter.total := t; PlanExporter.added := a;
      PlanExporter.changed := c; PlanExporter.destroyed := d; PlanExporter.drift := dr |}).
    rewrite <- E.
    rewrite (counter_fold PlanExporter.tally PlanExporter.added (fun rc => "create" ∈ Actions (Change rc)));
      [reflexivity | intros; apply contains_hasAction | simpl; lia | simpl; lia].
  - change c with (PlanExporter.changed {| PlanExporter.total := t; PlanExporter.added := a;
      PlanExporter.changed := c; PlanExporter.destroyed := d; PlanExporter.drift := dr |}).
    rewrite <- E.
    rewrite (counter_fold PlanExporter.tally PlanExporter.changed (fun rc => "update" ∈ Actions (Change rc)));
      [reflexivity | intros; apply contains_hasAction | simpl; lia | simpl; lia].
  - change d with (PlanExporter.destroyed {| PlanExporter.total := t; PlanExporter.added := a;
      PlanExporter.changed := c; PlanExporter.destroyed := d; PlanExporter.drift := dr |}).
    rewrite <- E.
    rewrite (counter_fold PlanExporter.tally PlanExporter.destroyed (fun rc => "delete" ∈ Actions (Change rc)));
      [reflexivity | intros; apply contains_hasAction | simpl; lia | simpl; lia].
  - change dr with (PlanExporter.drift {| PlanExporter.total := t; PlanExporter.added := a;
      PlanExporter.changed := c; PlanExporter.destroyed := d; PlanExporter.drift := dr |}).
    rewrite <- E. rewrite drift_fold; simpl; lia.
Qed.

(** The counters of the collector after its loop. *)
Lemma collector_count (rcs : list ResourceChange) :
  Z.of_nat (length rcs) <= Go.maxInt ->
  Collector.count rcs =
  {| Collector.total := Z.of_nat (length rcs);
     Collector.toAdd := occurrences "create" rcs;
     Collector.toChange := occurrences "update" rcs;
     Collector.toDestroy := occurrences "delete" rcs;
     Collector.toImport := occurrences "import" rcs |}.
Proof.
  intros Hlen. unfold Collector.count, occurrences.
  set (c0 := {| Collector.total := 0; Collector.toAdd := 0; Collector.toChange := 0;
                Collector.toDestroy := 0; Collector.toImport := 0 |}).
  destruct (fold_left Collector.tally rcs c0) as [t a c d i] eqn:E.
  f_equal.
  - change t with (Collector.total {| Collector.total := t; Collector.toAdd := a;
      Collector.toChange := c; Collector.toDestroy := d; Collector.toImport := i |}).
    rewrite <- E. rewrite (counter_fold_all Collector.tally Collector.total);
      [reflexivity | reflexivity | simpl; lia | simpl; lia].
  - change a with (Collector.toAdd {| Collector.total := t; Collector.toAdd := a;
      Collector.toChange := c; Collector.toDestroy := d; Collector.toImport := i |}).
    rewrite <- E.
    rewrite (counter_fold Collector.tally Collector.toAdd (fun rc => "create" ∈ Actions (Change rc)));
      [reflexivity | intros; apply contains_hasAction | simpl; lia | simpl; lia].
  - change c with (Collector.toChange {| Collector.total := t; Collector.toAdd := a;
      Collector.toChange := c; Collector.toDestroy := d; Collector.toImport := i |}).
    rewrite <- E.
    rewrite (counter_fold Collector.tally Collector.toChange (fun rc => "update" ∈ Actions (Change rc)));
      [reflexivity | intros; apply contains_hasAction | simpl; lia | simpl; lia].
  - change d with (Collector.toDestroy {| Collector.total := t; Collector.toAdd := a;
      Collector.toChange := c; Collector.toDestroy := d; Collector.toImport := i |}).
    rewrite <- E.
    rewrite (counter_fold Collector.tally Collector.toDestroy (fun rc => "delete" ∈ Actions (Change rc)));
      [reflexivity | intros; apply contains_hasAction | simpl; lia | simpl; lia].
  - change i with (Collector.toImport {| Collector.total := t; Collector.toAdd := a;
      Collector.toChange := c; Collector.toDestroy := d; Collector.toImport := i |}).
    rewrite <- E.
    rewrite (counter_fold Collector.tally Collector.toImport (fun rc => "import" ∈ Actions (Change rc)));
      [reflexivity | intros; apply contains_hasAction | simpl; lia | simpl; lia].
Qed.

End Counting.

Section PlanOnlyCounts.

Variable Unmarshal : string -> PlanExporter.PlanJSON * option error.

Lemma filter_length_le {A : Type} (P Q : A -> Prop)
    `{forall a, Decision (P a)} `{forall a, Decision (Q a)} (l : list A) :
  (forall a, P a -> Q a) -> (length (filter P l) <= length (filter Q l))%nat.
Proof.
  intros HPQ. induction l as [|a l IH]; [reflexivity |].
  rewrite !filter_cons. destruct (decide (P a)) as [HP | HP].
  - destruct (decide (Q a)) as [HQ | HQ]; [simpl; lia | exfalso; auto].
  - destruct (decide (Q a)); simpl; lia.
Qed.

(** X1. On a plan that reads and decodes, [parseTerraformPlan] returns
    no error and sets the five gauges of the plan to counts over the
    document: the number of resource changes, the numbers of them with
    [create], with [update] and with [delete] among their actions, and 1
    or 0 for whether some record is a lone [update].  The duration and
    success gauges are left as they were. *)
Theorem plan_gauges_are_counts (w : World) (path data : string)
    (g : PlanExporter.Gauges) (plan : PlanExporter.PlanJSON) :
  ReadFile w path = inr data ->
  Unmarshal data = (plan, None) ->
  Z.of_nat (length (PlanExporter.ResourceChanges plan)) <= Go.maxInt ->
  let rcs := PlanExporter.ResourceChanges plan in
  PlanExporter.parseTerraformPlan Unmarshal w path g =
  ({| PlanExporter.resourcesTotal := ofInt (Z.of_nat (length rcs));
      PlanExporter.resourcesAdded := ofInt (occurrences "create" rcs);
      PlanExporter.resourcesChanged := ofInt (occurrences "update" rcs);
      PlanExporter.resourcesDestroyed := ofInt (occurrences "delete" rcs);
      PlanExporter.executionDuration := PlanExporter.executionDuration g;
      PlanExporter.executionSuccess := PlanExporter.executionSuccess g;
      PlanExporter.driftDetected := ofInt (if decide (singleUpdates rcs = 0) then 0 else 1) |},
   None).
Proof.
  intros Hread Hdec Hlen rcs. unfold PlanExporter.parseTerraformPlan.
  rewrite Hread, Hdec, plan_count by exact Hlen.
  cbn [PlanExporter.total PlanExporter.added PlanExporter.changed
       PlanExporter.destroyed PlanExporter.drift]. fold rcs.
  do 3 f_equal. unfold PlanExporter.min, singleUpdates.
  destruct (decide (Z.of_nat (length (filter singleUpdate rcs)) = 0)) as [-> | Hne];
    [reflexivity |].
  destruct (Z.ltb_spec 1 (Z.of_nat (length (filter singleUpdate rcs)))); lia.
Qed.

(** X2. The counters of the plan-only exporter are ordered: none is
    negative, the records counted as drift are among those counted as
    changed, and no bucket exceeds the total. *)
Theorem plan_counters_ordered (rcs : list ResourceChange) :
  Z.of_nat (length rcs) <= Go.maxInt ->
  let c := PlanExporter.count rcs in
  0 <= PlanExporter.drift c <= PlanExporter.changed c
  /\ PlanExporter.changed c <= PlanExporter.total c
  /\ 0 <= PlanExporter.added c <= PlanExporter.total c
  /\ 0 <= PlanExporter.destroyed c <= PlanExporter.total c.
Proof.
  intros Hlen c. subst c. rewrite plan_count by exact Hlen.
  cbn [PlanExporter.total PlanExporter.added PlanExporter.changed
       PlanExporter.destroyed PlanExporter.drift].
  unfold occurrences, singleUpdates.
  pose proof (length_filter (fun rc => "create" ∈ Actions (Change rc)) rcs).
  pose proof (length_filter (fun rc => "update" ∈ Actions (Change rc)) rcs).
  pose proof (length_filter (fun rc => "delete" ∈ Actions (Change rc)) rcs).
  assert (length (filter singleUpdate rcs)
          <= length (filter (fun rc => "update" ∈ Actions (Change rc)) rcs))%nat.
  { apply filter_length_le. intros rc Hrc. unfold singleUpdate in Hrc. rewrite Hrc.
    constructor. }
  lia.
Qed.

(** X3. What the plan-only exporter does with the outcome of the parse.
    When the plan cannot be read or decoded, [main] prints one line with
    the error, pushes all five plan gauges as 0 with the success gauge at
    0, and goes on to push; when the parse succeeds the success gauge is
    1 and nothing is printed before the push.  In both cases the exit
    code is that of the push alone: 0 when the gateway accepts, 1 (after
    a line with its error) when it does not. *)
Theorem plan_only_main_outcome (w : World) :
  let parsed := PlanExporter.parseTerraformPlan Unmarshal w
                  (Getenv w "TERRAFORM_PLAN_PATH") PlanExporter.initial in
  let run := PlanExporter.main Unmarshal w in
  (forall err, snd parsed = Some err ->
     PlanExporter.pushed run = PlanExporter.collectors (unsetGauges w 0)
     /\ head (PlanExporter.stdout run) = Some ("Error parsing plan: " ++ Error err))
  /\ (snd parsed = None ->
      PlanExporter.pushed run =
      PlanExporter.collectors
        {| PlanExporter.resourcesTotal := PlanExporter.resourcesTotal (fst parsed);
           PlanExporter.resourcesAdded := PlanExporter.resourcesAdded (fst parsed);
           PlanExporter.resourcesChanged := PlanExporter.resourcesChanged (fst parsed);
           PlanExporter.resourcesDestroyed := PlanExporter.resourcesDestroyed (fst parsed);
           PlanExporter.executionDuration := ofSeconds (elapsed w);
           PlanExporter.executionSuccess := ofInt 1;
           PlanExporter.driftDetected := PlanExporter.driftDetected (fst parsed) |}
      /\ (gateway w = None -> PlanExporter.stdout run = []))
  /\ (PlanExporter.exitCode run = 0 <-> gateway w = None)
  /\ (forall e, gateway w = Some e ->
        PlanExporter.exitCode run = 1
        /\ last (PlanExporter.stdout run) = Some ("Push failed: " ++ Error e)).
Proof.
  intros parsed run. subst parsed run. unfold PlanExporter.main.
  assert (Hfail : forall err,
    snd (PlanExporter.parseTerraformPlan Unmarshal w (Getenv w "TERRAFORM_PLAN_PATH")
           PlanExporter.initial) = Some err ->
    fst (PlanExporter.parseTerraformPlan Unmarshal w (Getenv w "TERRAFORM_PLAN_PATH")
           PlanExporter.initial) = PlanExporter.initial).
  { unfold PlanExporter.parseTerraformPlan. intros err.
    destruct (ReadFile w _); [reflexivity |].
    destruct (Unmarshal _) as [plan [e |]]; [reflexivity | discriminate]. }
  destruct (PlanExporter.parseTerraformPlan Unmarshal w (Getenv w "TERRAFORM_PLAN_PATH")
              PlanExporter.initial) as [g [err |]] eqn:E; cbn [fst snd] in *.
  - rewrite (Hfail err eq_refl).
    destruct (gateway w) as [e |]; cbn [PlanExporter.pushed PlanExporter.stdout PlanExporter.exitCode].
    + split; [intros ? [= <-]; split; reflexivity |].
      split; [discriminate |]. split; [split; discriminate |].
      intros ? [= <-]. split; reflexivity.
    + split; [intros ? [= <-]; split; reflexivity |].
      split; [discriminate |]. split; [split; reflexivity |]. discriminate.
  - destruct (gateway w) as [e |]; cbn [PlanExporter.pushed PlanExporter.stdout PlanExporter.exitCode].
    + split; [discriminate |]. split; [intros _; split; [reflexivity | discriminate] |].
      split; [split; discriminate |]. intros ? [= <-]. split; reflexivity.
    + split; [discriminate |]. split; [intros _; split; reflexivity |].
      split; [split; reflexivity |]. discriminate.
Qed.

End PlanOnlyCounts.

Ltac collect_run w :=
  unfold Collector.collectMetrics;
  destruct (Collector.detectDrift w _) as [?drift ?out] eqn:?Hdrift;
  destruct (String.eqb (Getenv w "TERRAFORM_APPLY_LOG_PATH") "") eqn:?Happly; cbn [negb];
  [ | let st := fresh "st" in let Hst := fresh "Hst" in
      destruct (parseLogStats_total w (Getenv w "TERRAFORM_APPLY_LOG_PATH")) as [st Hst];
      rewrite Hst ];
  cbn [mbind option_bind];
  destruct (Collector.isTerraformRunSuccessful w _) eqn:?Hok;
  (eexists; split; [reflexivity | ]).

Section CollectorGauges.

Variable Unmarshal : string -> Collector.PlanJSON * option error.
Variable ParseRFC3339 : string -> option Z.

(** X4. The planned gauges of the collector are counts over whatever
    document the decoder left, whether or not it reported an error: the
    number of resource changes, and the numbers of them with [create],
    [update], [delete] and [import] among their actions. *)
Theorem collector_planned_gauges (w : World) (data : string) :
  let plan := fst (Unmarshal data) in
  let rcs := Collector.ResourceChanges plan in
  ReadFile w (Getenv w "TERRAFORM_PLAN_PATH") = inr data ->
  Z.of_nat (length rcs) <= Go.maxInt ->
  exists run : Collector.Run,
    Collector.collectMetrics Unmarshal ParseRFC3339 w = Some run
    /\ let published := Collector.gauges (Collector.metrics run) in
       published !! "terraform_resources_total" =
         Some (gauge "terraform_resources_total" "Total planned resource changes"
                 (ofInt (Z.of_nat (length rcs))))
       /\ published !! "terraform_to_add" =
         Some (gauge "terraform_to_add" "Resources planned to be added"
                 (ofInt (occurrences "create" rcs)))
       /\ published !! "terraform_to_change" =
         Some (gauge "terraform_to_change" "Resources planned to be changed"
                 (ofInt (occurrences "update" rcs)))
       /\ published !! "terraform_to_destroy" =
         Some (gauge "terraform_to_destroy" "Resources planned to be destroyed"
                 (ofInt (occurrences "delete" rcs)))
       /\ published !! "terraform_to_import" =
         Some (gauge "terraform_to_import" "Resources planned to be imported"
                 (ofInt (occurrences "import" rcs))).
Proof.
  intros plan rcs Hread Hlen.
  assert (Hcount := collector_count rcs Hlen).
  unfold Collector.collectMetrics. rewrite Hread. fold plan. fold rcs. rewrite Hcount.
  cbn [Collector.total Collector.toAdd Collector.toChange Collector.toDestroy
       Collector.toImport].
  destruct (Collector.detectDrift w _) as [drift out].
  destruct (String.eqb (Getenv w "TERRAFORM_APPLY_LOG_PATH") ""); cbn [negb].
  - cbn [mbind option_bind].
    destruct (Collector.isTerraformRunSuccessful w _);
      (eexists; split; [reflexivity |]); cbn zeta; repeat split; lookup_gauge.
  - destruct (parseLogStats_total w (Getenv w "TERRAFORM_APPLY_LOG_PATH")) as [st ->].
    cbn [mbind option_bind].
    destruct (Collector.isTerraformRunSuccessful w _);
      (eexists; split; [reflexivity |]); cbn zeta; repeat split; lookup_gauge.
Qed.

(** X5. The result gauge reflects the apply log when one is configured
    and the plan file otherwise: [terraform_result] is 1 exactly when
    that file can be opened and none of its scanned lines carries an
    error marker, and 0 in every other case.  With an apply log
    configured the plan file has no part in it. *)
Theorem result_gauge (w : World) :
  let applyLogPath := Getenv w "TERRAFORM_APPLY_LOG_PATH" in
  let resultLogPath :=
    if String.eqb applyLogPath "" then Getenv w "TERRAFORM_PLAN_PATH" else applyLogPath in
  exists run : Collector.Run,
    Collector.collectMetrics Unmarshal ParseRFC3339 w = Some run
    /\ let result := Collector.gauges (Collector.metrics run) !! "terraform_result" in
       (result = Some (gauge "terraform_result" "1=success, 0=failure" (ofInt 1))
        <-> exists data : string,
              Open w resultLogPath = inr data
              /\ Forall (fun line => ~ errorLine line) (Go.scanLines data))
       /\ (result = Some (gauge "terraform_result" "1=success, 0=failure" (ofInt 1))
           \/ result = Some (gauge "terraform_result" "1=success, 0=failure" (ofInt 0))).
Proof.
  intros applyLogPath resultLogPath.
  assert (Hspec : forall path,
    Collector.isTerraformRunSuccessful w path = true
    <-> exists data, Open w path = inr data
                     /\ Forall (fun line => ~ errorLine line) (Go.scanLines data)).
  { intros path. unfold Collector.isTerraformRunSuccessful.
    destruct (Open w path) as [err | data].
    - split; [discriminate | intros (? & ? & _); discriminate].
    - rewrite noErrorLine_spec. split; [intros H; now exists data |].
      intros (data' & [= <-] & H). exact H. }
  subst resultLogPath applyLogPath. collect_run w; cbn zeta.
  - rewrite <- Hspec, Hok. split; [|left; lookup_gauge].
    split; [reflexivity | intros _; lookup_gauge].
  - rewrite <- Hspec, Hok. split; [|right; lookup_gauge].
    split; [|discriminate]. lookup_gauge. intros H. discriminate H.
  - rewrite <- Hspec, Hok. split; [|left; lookup_gauge].
    split; [reflexivity | intros _; lookup_gauge].
  - rewrite <- Hspec, Hok. split; [|right; lookup_gauge].
    split; [|discriminate]. lookup_gauge. intros H. discriminate H.
Qed.

(** X6. The timestamp gauge is the Unix time of the plan's timestamp
    when the plan file reads, the decoder left a timestamp that is not
    empty, and that timestamp parses as RFC 3339; in every other case,
    an unparseable timestamp among them, it is the wall clock, and
    nothing is reported. *)
Theorem timestamp_gauge (w : World) :
  let planPath := Getenv w "TERRAFORM_PLAN_PATH" in
  exists run : Collector.Run,
    Collector.collectMetrics Unmarshal ParseRFC3339 w = Some run
    /\ let stamp := Collector.gauges (Collector.metrics run) !! "terraform_timestamp" in
       let clock := Some (gauge "terraform_timestamp" "Unix timestamp of run"
                            (ofInt (nowUnix w))) in
       (forall err, ReadFile w planPath = inl err -> stamp = clock)
       /\ (forall data, ReadFile w planPath = inr data ->
             let written := Collector.Timestamp (fst (Unmarshal data)) in
             (written = "" -> stamp = clock)
             /\ (ParseRFC3339 written = None -> stamp = clock)
             /\ (forall unix, written <> "" -> ParseRFC3339 written = Some unix ->
                   stamp = Some (gauge "terraform_timestamp" "Unix timestamp of run"
                                   (ofInt unix)))).
Proof.
  intros planPath. subst planPath. unfold Collector.collectMetrics.
  destruct (Collector.detectDrift w _) as [drift out].
  set (plan := match ReadFile w (Getenv w "TERRAFORM_PLAN_PATH") with
               | inl _ => Collector.zeroPlan
               | inr planFile => fst (Unmarshal planFile)
               end).
  set (stampValue := if negb (String.eqb (Collector.Timestamp plan) "")
                     then match ParseRFC3339 (Collector.Timestamp plan) with
                          | Some unix => ofInt unix
                          | None => ofInt (nowUnix w)
                          end
                     else ofInt (nowUnix w)).
  assert (Hstamp :
    (forall err, ReadFile w (Getenv w "TERRAFORM_PLAN_PATH") = inl err ->
       stampValue = ofInt (nowUnix w))
    /\ (forall data, ReadFile w (Getenv w "TERRAFORM_PLAN_PATH") = inr data ->
          let written := Collector.Timestamp (fst (Unmarshal data)) in
          (written = "" -> stampValue = ofInt (nowUnix w))
          /\ (ParseRFC3339 written = None -> stampValue = ofInt (nowUnix w))
          /\ (forall unix, written <> "" -> ParseRFC3339 written = Some unix ->
                stampValue = ofInt unix))).
  { subst stampValue plan. split.
    - intros err ->. reflexivity.
    - intros data ->. cbn zeta. split; [|split].
      + intros ->. reflexivity.
      + intros ->. now destruct (negb _).
      + intros unix Hne ->. apply String.eqb_neq in Hne. now rewrite Hne. }
  clearbody stampValue. destruct Hstamp as [Habsent Hread].
  destruct (String.eqb (Getenv w "TERRAFORM_APPLY_LOG_PATH") ""); cbn [negb].
  - cbn [mbind option_bind].
    destruct (Collector.isTerraformRunSuccessful w _);
      (eexists; split; [reflexivity |]); cbn zeta.
    all: split; [intros err H; rewrite <- (Habsent err H); lookup_gauge |].
    all: intros data H; destruct (Hread data H) as (H1 & H2 & H3); split; [|split];
         [ intros Hw; rewrite <- (H1 Hw); lookup_gauge
         | intros Hw; rewrite <- (H2 Hw); lookup_gauge
         | intros unix Hne Hp; rewrite <- (H3 unix Hne Hp); lookup_gauge ].
  - destruct (parseLogStats_total w (Getenv w "TERRAFORM_APPLY_LOG_PATH")) as [st ->].
    cbn [mbind option_bind].
    destruct (Collector.isTerraformRunSuccessful w _);
      (eexists; split; [reflexivity |]); cbn zeta.
    all: split; [intros err H; rewrite <- (Habsent err H); lookup_gauge |].
    all: intros data H; destruct (Hread data H) as (H1 & H2 & H3); split; [|split];
         [ intros Hw; rewrite <- (H1 Hw); lookup_gauge
         | intros Hw; rewrite <- (H2 Hw); lookup_gauge
         | intros unix Hne Hp; rewrite <- (H3 unix Hne Hp); lookup_gauge ].
Qed.

(** X7. The four gauges of the actual counts are there exactly when an
    apply log is configured, and then hold the results of
    [parseLogStats] on it.  An apply log that is configured and cannot
    be opened therefore gives four zeros, as an apply without changes
    does, together with a result gauge of 0. *)
Theorem actual_gauges (w : World) :
  let applyLogPath := Getenv w "TERRAFORM_APPLY_LOG_PATH" in
  exists run : Collector.Run,
    Collector.collectMetrics Unmarshal ParseRFC3339 w = Some run
    /\ let published := Collector.gauges (Collector.metrics run) in
       (applyLogPath = "" ->
          published !! "terraform_added" = None
          /\ published !! "terraform_changed" = None
          /\ published !! "terraform_destroyed" = None
          /\ published !! "terraform_imported" = None)
       /\ (applyLogPath <> "" ->
           exists st : Collector.Stats,
             Collector.parseLogStats w applyLogPath = Some st
             /\ published !! "terraform_added" =
                Some (gauge "terraform_added" "Resources actually added"
                        (ofInt (Collector.added st)))
             /\ published !! "terraform_changed" =
                Some (gauge "terraform_changed" "Resources actually changed"
                        (ofInt (Collector.changed st)))
             /\ published !! "terraform_destroyed" =
                Some (gauge "terraform_destroyed" "Resources actually destroyed"
                        (ofInt (Collector.destroyed st)))
             /\ published !! "terraform_imported" =
                Some (gauge "terraform_imported" "Resources actually imported"
                        (ofInt (Collector.imported st))))
       /\ (applyLogPath <> "" -> (exists err, Open w applyLogPath = inl err) ->
           Collector.parseLogStats w applyLogPath = Some Collector.noStats
           /\ published !! "terraform_result" =
              Some (gauge "terraform_result" "1=success, 0=failure" (ofInt 0))).
Proof.
  intros applyLogPath. subst applyLogPath. collect_run w; cbn zeta.
  1, 2: apply String.eqb_eq in Happly.
  3, 4: apply String.eqb_neq in Happly.
  - split; [intros _; repeat split; lookup_gauge |]. split; intros H; congruence.
  - split; [intros _; repeat split; lookup_gauge |]. split; intros H; congruence.
  - split; [intros H; congruence |]. split.
    + intros _. exists st. split; [reflexivity |]. repeat split; lookup_gauge.
    + intros _ [err Herr]. exfalso. unfold Collector.isTerraformRunSuccessful in Hok.
      rewrite Herr in Hok. discriminate.
  - split; [intros H; congruence |]. split.
    + intros _. exists st. split; [reflexivity |]. repeat split; lookup_gauge.
    + intros _ [err Herr]. split; [|lookup_gauge].
      unfold Collector.parseLogStats in Hst. rewrite Herr in Hst. exact (eq_sym Hst).
Qed.

(** X8. The collector never ends in a panic, and its exit code is that
    of the push alone: [main] exits with 0 when the gateway accepts and
    with 1, after a line with the error, when it does not, whatever the
    plan and the logs hold. *)
Theorem collector_exit_code (w : World) :
  exists (out : list string) (code : Z),
    Collector.main Unmarshal ParseRFC3339 w = Some (out, code)
    /\ (code = 0 <-> gateway w = None)
    /\ (forall e, gateway w = Some e ->
          code = 1 /\ last out = Some ("Error pushing metrics: " ++ Error e)).
Proof.
  unfold Collector.main.
  assert (Hrun : exists run, Collector.collectMetrics Unmarshal ParseRFC3339 w = Some run
                             /\ Collector.returned run = gateway w).
  { collect_run w; reflexivity. }
  destruct Hrun as (run & -> & Hret). cbn [mbind option_bind]. rewrite Hret.
  destruct (gateway w) as [e |].
  - eexists _, _. split; [reflexivity |]. split; [split; discriminate |].
    intros ? [= <-]. split; [reflexivity |]. apply last_snoc.
  - eexists _, _. split; [reflexivity |]. split; [split; reflexivity |]. discriminate.
Qed.

(** X9. When no refresh log is configured, [detectDrift] is asked about
    the empty path: the drift gauge is 0 and every run prints a line
    that it could not read the refresh log. *)
Theorem refresh_log_not_configured (w : World) :
  Getenv w "TERRAFORM_REFRESH_LOG_PATH" = "" ->
  files w !! "" = None ->
  exists run : Collector.Run,
    Collector.collectMetrics Unmarshal ParseRFC3339 w = Some run
    /\ Collector.gauges (Collector.metrics run) !! "terraform_drift_detected" =
       Some (driftGauge (ofInt 0))
    /\ Collector.stdout run =
       ["Error reading refresh log: open : no such file or directory"].
Proof.
  intros Henv Hfile.
  assert (Hd : Collector.detectDrift w (Getenv w "TERRAFORM_REFRESH_LOG_PATH") =
               (ofInt 0, ["Error reading refresh log: open : no such file or directory"])).
  { rewrite Henv. unfold Collector.detectDrift, ReadFile. rewrite Hfile. reflexivity. }
  unfold Collector.collectMetrics. rewrite Hd.
  destruct (String.eqb (Getenv w "TERRAFORM_APPLY_LOG_PATH") ""); cbn [negb].
  - cbn [mbind option_bind].
    destruct (Collector.isTerraformRunSuccessful w _);
      (eexists; split; [reflexivity |]); (split; [lookup_gauge | reflexivity]).
  - destruct (parseLogStats_total w (Getenv w "TERRAFORM_APPLY_LOG_PATH")) as [st ->].
    cbn [mbind option_bind].
    destruct (Collector.isTerraformRunSuccessful w _);
      (eexists; split; [reflexivity |]); (split; [lookup_gauge | reflexivity]).
Qed.

End CollectorGauges.

Section Numerals.

Lemma readFrom_acc (d : Decimal.uint) (p : positive) :
  Z.pos (Pos.of_uint_acc d p) = readFrom d (Z.pos p).
Proof.
  revert p. induction d; intros p; cbn [Pos.of_uint_acc readFrom];
    [reflexivity | rewrite IHd; f_equal; lia ..].
Qed.

Lemma readFrom_value (d : Decimal.uint) : Z.of_N (N.of_uint d) = readFrom d 0.
Proof.
  unfold N.of_uint. induction d; cbn [Pos.of_uint readFrom];
    [reflexivity | exact IHd | cbn [Z.of_N]; rewrite readFrom_acc; reflexivity ..].
Qed.

Lemma readFrom_ge (d : Decimal.uint) (acc : Z) : 0 <= acc -> acc <= readFrom d acc.
Proof.
  revert acc. induction d; intros acc H; cbn [readFrom];
    [lia | etransitivity; [|apply IHd]; lia ..].
Qed.

Lemma readFrom_lt (d : Decimal.uint) (acc : Z) :
  0 <= acc -> readFrom d acc < (acc + 1) * 10 ^ Z.of_nat (String.length (numeral d)).
Proof.
  revert acc. induction d; intros acc H; cbn [readFrom numeral DecimalString.NilEmpty.string_of_uint String.length];
    [ simpl; lia | .. ];
    (rewrite Nat2Z.inj_succ, Z.pow_succ_r by lia;
     eapply Z.lt_le_trans; [apply IHd; lia |];
     fold (numeral d);
     assert (0 < 10 ^ Z.of_nat (String.length (numeral d))) by (apply Z.pow_pos_nonneg; lia);
     nia).
Qed.

Lemma atoiLoop_numeral (d : Decimal.uint) (acc : Z) :
  Go.atoiLoop (numeral d) acc = Some (readFrom d acc).
Proof.
  revert acc. induction d; intros acc; [reflexivity | ..].
  all: cbn [numeral DecimalString.NilEmpty.string_of_uint Go.atoiLoop readFrom].
  all: fold (numeral d).
  all: match goal with |- context [Go.byte_val ?c] =>
         let v := eval vm_compute in ((Go.byte_val c - 48) mod 256) in
         change ((Go.byte_val c - 48) mod 256) with v end.
  all: cbn [Z.gtb Z.compare Pos.compare Pos.compare_cont].
  all: rewrite IHd; f_equal; f_equal; lia.
Qed.

Lemma parseUintLoop_digit (c : ascii) (t : string) (k n : Z) :
  Go.byte_val c = 48 + k -> 0 <= k <= 9 -> 0 <= n <= Go.maxUint64 ->
  Go.parseUintLoop (String c t) n =
  if n * 10 + k <=? Go.maxUint64 then Go.parseUintLoop t (n * 10 + k)
  else (Go.maxUint64, Some Go.ErrRange).
Proof.
  intros Hc Hk Hn. cbn [Go.parseUintLoop]. rewrite Hc. unfold Go.maxUint64 in *.
  replace ((48 <=? 48 + k) && (48 + k <=? 57)) with true
    by (symmetry; apply andb_true_iff; split; apply Z.leb_le; lia).
  replace (48 + k - 48) with k by lia.
  change ((2 ^ 64 - 1) / 10 + 1) with 1844674407370955162.
  destruct (Z.geb_spec n 1844674407370955162) as [Hcut | Hcut].
  - destruct (Z.leb_spec (n * 10 + k) (2 ^ 64 - 1)); [lia | reflexivity].
  - destruct (Z.leb_spec (n * 10 + k) (2 ^ 64 - 1)) as [Hfit | Hover].
    + rewrite (Z.mod_small (n * 10 + k)) by lia.
      destruct (Z.ltb_spec (n * 10 + k) (n * 10)); [lia |].
      destruct (Z.ltb_spec (2 ^ 64 - 1) (n * 10 + k)); [lia | reflexivity].
    + replace ((n * 10 + k) mod 2 ^ 64) with (n * 10 + k - 2 ^ 64)
        by (apply Z.mod_unique with 1; lia).
      destruct (Z.ltb_spec (n * 10 + k - 2 ^ 64) (n * 10)); [reflexivity | lia].
Qed.

Lemma parseUintLoop_numeral (d : Decimal.uint) (n : Z) :
  0 <= n <= Go.maxUint64 ->
  Go.parseUintLoop (numeral d) n =
  if readFrom d n <=? Go.maxUint64 then (readFrom d n, None)
  else (Go.maxUint64, Some Go.ErrRange).
Proof.
  revert n.
  induction d as [|d IH|d IH|d IH|d IH|d IH|d IH|d IH|d IH|d IH|d IH]; intros n Hn.
  { cbn [numeral DecimalString.NilEmpty.string_of_uint Go.parseUintLoop readFrom].
    destruct (Z.leb_spec n Go.maxUint64); [reflexivity | lia]. }
  all: cbn [numeral DecimalString.NilEmpty.string_of_uint readFrom]; fold (numeral d).
  all: match goal with
       | |- context [readFrom ?dd (?nn * 10 + ?k)] =>
         rewrite (parseUintLoop_digit _ _ k nn) by (reflexivity || lia || exact Hn);
         pose proof (readFrom_ge dd (nn * 10 + k) ltac:(lia)) as Hge;
         destruct (Z.leb_spec (nn * 10 + k) Go.maxUint64) as [Hfit | Hover];
         [ apply IH; lia
         | destruct (Z.leb_spec (readFrom dd (nn * 10 + k)) Go.maxUint64); [lia | reflexivity] ]
       | |- context [readFrom ?dd (?nn * 10)] =>
         rewrite (parseUintLoop_digit _ _ 0 nn) by (reflexivity || lia || exact Hn);
         rewrite Z.add_0_r;
         pose proof (readFrom_ge dd (nn * 10) ltac:(lia)) as Hge;
         destruct (Z.leb_spec (nn * 10) Go.maxUint64) as [Hfit | Hover];
         [ apply IH; lia
         | destruct (Z.leb_spec (readFrom dd (nn * 10)) Go.maxUint64); [lia | reflexivity] ]
       end.
Qed.

(** [strconv.Atoi] reads a numeral as the number it denotes, and as the
    largest [int] when the number is beyond it. *)
Lemma Atoi_numeral (d : Decimal.uint) :
  d <> Decimal.Nil ->
  Go.Atoi (numeral d) =
  if Z.of_N (N.of_uint d) <=? Go.maxInt then (Z.of_N (N.of_uint d), None)
  else (Go.maxInt, Some Go.ErrRange).
Proof.
  intros Hd. rewrite readFrom_value.
  pose proof (readFrom_ge d 0 ltac:(lia)) as H0.
  pose proof (readFrom_lt d 0 ltac:(lia)) as Hlt.
  assert (Hfirst : exists c t, numeral d = String c t
                               /\ Ascii.eqb c "-" = false /\ Ascii.eqb c "+" = false).
  { destruct d; [congruence | ..]; eexists _, _; (split; [reflexivity | split; reflexivity]). }
  destruct Hfirst as (c & t & Hs & Hminus & Hplus).
  unfold Go.Atoi, Go.len.
  destruct ((0 <? Z.of_nat (String.length (numeral d)))
            && (Z.of_nat (String.length (numeral d)) <? 19)) eqn:Hfast.
  - apply andb_true_iff in Hfast as [_ Hlen]. apply Z.ltb_lt in Hlen.
    rewrite Hs. rewrite Hminus, Hplus. cbn [orb andb]. rewrite <- Hs.
    rewrite atoiLoop_numeral.
    assert (readFrom d 0 < 10 ^ 18).
    { eapply Z.lt_le_trans; [exact Hlt |]. rewrite Z.mul_1_l.
      apply Z.pow_le_mono_r; lia. }
    unfold Go.maxInt. destruct (Z.leb_spec (readFrom d 0) (2 ^ 63 - 1)); [reflexivity | lia].
  - unfold Go.ParseInt. rewrite Hs, Hminus, Hplus. cbn [orb andb negb]. rewrite <- Hs.
    unfold Go.ParseUint. replace (String.eqb (numeral d) "") with false
      by (rewrite Hs; reflexivity).
    rewrite parseUintLoop_numeral by (unfold Go.maxUint64; lia).
    unfold Go.maxUint64, Go.maxInt.
    destruct (Z.leb_spec (readFrom d 0) (2 ^ 64 - 1)) as [Hfit | Hover].
    + destruct (Z.geb_spec (readFrom d 0) (2 ^ 63)) as [Hbig | Hsmall].
      * destruct (Z.leb_spec (readFrom d 0) (2 ^ 63 - 1)); [lia | reflexivity].
      * destruct (Z.leb_spec (readFrom d 0) (2 ^ 63 - 1)); [|lia].
        assert (Hw : Go.wrapInt (readFrom d 0) = readFrom d 0)
          by (unfold Go.wrapInt; rewrite Z.mod_small; lia).
        now rewrite !Hw.
    + change (2 ^ 64 - 1 >=? 2 ^ 63) with true. cbn iota.
      destruct (Z.leb_spec (readFrom d 0) (2 ^ 63 - 1)); [lia | reflexivity].
Qed.

End Numerals.

Section ApplyLogMore.

Lemma numeral_allDigits (d : Decimal.uint) : allDigits (numeral d) = true.
Proof. induction d; [reflexivity | exact IHd ..]. Qed.

Lemma to_uint_nonnil (n : N) : N.to_uint n <> Decimal.Nil.
Proof.
  destruct n as [|p]; [discriminate |]. apply DecimalPos.Unsigned.to_uint_nonnil.
Qed.

Lemma decimalOf_decimal (n : N) : decimal (decimalOf n).
Proof.
  split; [|apply numeral_allDigits].
  unfold decimalOf. pose proof (to_uint_nonnil n) as H.
  destruct (N.to_uint n); [congruence | discriminate ..].
Qed.

(** [Atoi] reads a printed number back, up to the largest [int]. *)
Lemma Atoi_decimalOf (n : N) :
  Z.of_N n <= Go.maxInt -> Go.Atoi (decimalOf n) = (Z.of_N n, None).
Proof.
  intros H. unfold decimalOf. rewrite Atoi_numeral by apply to_uint_nonnil.
  rewrite DecimalN.Unsigned.of_to. apply Z.leb_le in H. now rewrite H.
Qed.

(** X10. A transcript without a summary line and an apply log that
    cannot be opened give the same counts, all zero. *)
Theorem no_summary_no_counts (w : World) (path : string) :
  (forall err, Open w path = inl err ->
     Collector.parseLogStats w path = Some Collector.noStats)
  /\ (forall data, Open w path = inr data ->
        Forall (fun line => ~ occurs "Apply complete!" line) (Go.scanLines data) ->
        Collector.parseLogStats w path = Some Collector.noStats).
Proof.
  unfold Collector.parseLogStats. split.
  - intros err ->. reflexivity.
  - intros data -> H. now apply forEach_unmarked.
Qed.

(** X11. The last summary line decides.  When the last line of a
    transcript with ["Apply complete!"] is the summary of the counts [A],
    [C] and [D], whatever lines stand before it, other summaries among
    them, [parseLogStats] returns [A] as the added count and [C] as the
    changed count, for counts up to the largest [int]. *)
Theorem last_summary_counts (w : World) (path data : string)
    (before after : list string) (A C D : N) :
  Z.of_N A <= Go.maxInt -> Z.of_N C <= Go.maxInt ->
  Open w path = inr data ->
  Go.scanLines data =
    (before ++ summaryOf (decimalOf A) (decimalOf C) (decimalOf D) :: after)%list ->
  Forall (fun line => ~ occurs "Apply complete!" line) after ->
  exists st : Collector.Stats,
    Collector.parseLogStats w path = Some st
    /\ Collector.added st = Z.of_N A
    /\ Collector.changed st = Z.of_N C.
Proof.
  intros HA HC Hopen Hlines Hafter.
  unfold Collector.parseLogStats. rewrite Hopen, Hlines, forEach_app.
  destruct (forEach_total Collector.lineStep before lineStep_total Collector.noStats)
    as [st0 ->].
  cbn [mbind option_bind Collector.forEach].
  rewrite lineStep_summaryOf by apply decimalOf_decimal.
  cbn [mbind option_bind]. rewrite forEach_unmarked by exact Hafter.
  eexists. split; [reflexivity |].
  cbn [Collector.added Collector.changed].
  now rewrite !Atoi_decimalOf by assumption.
Qed.

Lemma TrimSpace_plain (s : string) : plainToken s = true -> Go.TrimSpace s = s.
Proof.
  intros Hp. destruct s as [|t0 s']; [reflexivity |].
  destruct (string_snoc (String t0 s') ltac:(discriminate)) as (s1 & y & Hs).
  unfold Go.TrimSpace. rewrite runes_ascii by now apply plainToken_ascii.
  assert (Hy : Go.space_rune (Go.byte_val y, String y "") = false).
  { rewrite Hs, plainToken_app in Hp. apply andb_true_iff in Hp as [_ Hy].
    cbn [plainToken] in Hy. rewrite andb_true_r in Hy.
    apply andb_true_iff in Hy as [_ Hy]. now apply negb_true_iff in Hy. }
  assert (H0 : Go.space_rune (Go.byte_val t0, String t0 "") = false).
  { cbn [plainToken] in Hp. apply andb_true_iff in Hp as [Hp _].
    apply andb_true_iff in Hp as [_ Hp]. now apply negb_true_iff in Hp. }
  cbn [byteRunes]. rewrite dropSpaces_head by exact H0.
  change ((Go.byte_val t0, String t0 "") :: byteRunes s') with (byteRunes (String t0 s')).
  rewrite Hs, byteRunes_app. cbn [byteRunes]. rewrite rev_unit.
  rewrite dropSpaces_head by exact Hy. rewrite <- rev_unit, rev_involutive.
  change [(Go.byte_val y, String y "")] with (byteRunes (String y "")).
  rewrite <- byteRunes_app. apply bytes_of_byteRunes.
Qed.

Lemma Fields_plain (s : string) :
  plainToken s = true -> (length (Go.Fields s) <= 1)%nat.
Proof.
  intros Hp. unfold Go.Fields. rewrite <- (append_nil_r s).
  rewrite fieldsLoop_plain by exact Hp. cbn [Go.runes Go.fieldsLoop String.append].
  destruct (String.eqb s ""); simpl; lia.
Qed.

(** A segment that is one token changes nothing. *)
Lemma statStep_plain (st : Collector.Stats) (s : string) :
  plainToken s = true -> Collector.statStep st s = Some st.
Proof.
  intros Hp. rewrite statStep_tokens, TrimSpace_plain by exact Hp.
  pose proof (Fields_plain s Hp) as H.
  destruct (Go.Fields s) as [|a [|b l]]; [reflexivity | reflexivity | simpl in H; lia].
Qed.

(** X12. The statistics are looked for between the first and the second
    colon of the line.  A summary line with a time of day in front of
    it, so that digits stand between its first two colons, changes no
    count. *)
Theorem colon_before_summary (st : Collector.Stats) (pre mid rest : string) :
  hasByte ":" pre = false -> allDigits mid = true ->
  Collector.lineStep st (pre ++ ":" ++ mid ++ ":" ++ rest) = Some st.
Proof.
  intros Hpre Hmid. unfold Collector.lineStep.
  destruct (Go.Contains _ "Apply complete!"); [|reflexivity].
  change (pre ++ ":" ++ mid ++ ":" ++ rest)
    with (pre ++ String ":" (mid ++ String ":" rest)).
  rewrite Split_byte_app by exact Hpre.
  rewrite Split_byte_app by (now apply allDigits_noByte).
  cbn [length lookup list_lookup]. 
  replace (Z.of_nat (S (S (length (Go.Split rest ":")))) <? 2) with false
    by (symmetry; apply Z.ltb_ge; lia).
  cbn [mbind option_bind].
  rewrite Split_byte_absent by (now apply allDigits_noByte).
  cbn [Collector.forEach]. rewrite statStep_plain by (now apply allDigits_plain).
  reflexivity.
Qed.

(** X13. A line too long for the scanner hides what follows it.  When
    the lines before the first line of 64 KiB or more carry no error
    marker, [isTerraformRunSuccessful] answers true, whatever that line
    and the lines after it hold. *)
Theorem oversized_line_is_success (w : World) (logPath data piece : string)
    (before after : list string) :
  Open w logPath = inr data ->
  Go.Split data Go.newline = (before ++ piece :: after)%list ->
  Forall (fun p => Go.len p < Go.MaxScanTokenSize) before ->
  Forall (fun p => ~ errorLine (Go.dropCR p)) before ->
  Go.MaxScanTokenSize <= Go.len piece ->
  Collector.isTerraformRunSuccessful w logPath = true.
Proof.
  intros Hopen Hsplit Hfit Hclean Hbig.
  unfold Collector.isTerraformRunSuccessful, Go.scanLines.
  rewrite Hopen, Hsplit, scanTokens_oversized by assumption.
  apply noErrorLine_spec, Forall_map. exact Hclean.
Qed.

End ApplyLogMore.

Section SummarizerFacts.

Variable Join : string -> string -> string.
Variable visit : list (string * string) -> list (string * string).
Variable NewClient : string -> option string.
Variable GenerateContent : string -> string -> string + string.
Variable WriteFile : string -> string -> option string.

(** A [range] over a map visits every entry once, in some order. *)
Hypothesis visit_all : forall entries, Permutation (visit entries) entries.


Lemma gather_unreadable (w : World) (entries : list (string * string))
    (builder : string) (out : list string) :
  (exists label name reason, (label, name) ∈ entries
     /\ files w !! Join "exporter" name = Some (Unreadable reason)) ->
  exists name reason,
    Summarizer.failed (Summarizer.gather Join w entries builder out) =
    Some (Summarizer.ReadFailed (Join "exporter" name)
            (PathError "open" (Join "exporter" name) reason))
    /\ files w !! Join "exporter" name = Some (Unreadable reason).
Proof.
  revert builder out. induction entries as [|[label name] rest IH]; intros builder out H.
  - destruct H as (l & n & r & Hin & _). inversion Hin.
  - cbn [Summarizer.gather]. unfold ReadFile.
    destruct (files w !! Join "exporter" name) as [[data | reason] |] eqn:E.
    + apply IH. destruct H as (l & n & r & Hin & Hr).
      apply elem_of_cons in Hin as [[= -> ->] | Hin]; [congruence | eauto 6].
    + exists name, reason. split; [reflexivity | exact E].
    + apply IH. destruct H as (l & n & r & Hin & Hr).
      apply elem_of_cons in Hin as [[= -> ->] | Hin]; [congruence | eauto 6].
Qed.






(** X15. A log that exists and cannot be read ends the call before the
    model is asked: in whatever order the logs are visited,
    [QueryGemini] returns the error of reading such a log, makes no
    request and writes no file. *)
Theorem unreadable_log_aborts (w : World) (runID : string) :
  Getenv w "GOOGLE_API_KEY" <> "" ->
  NewClient (Getenv w "GOOGLE_API_KEY") = None ->
  (exists label name reason, (label, name) ∈ Summarizer.logs runID
     /\ files w !! Join "exporter" name = Some (Unreadable reason)) ->
  let run := Summarizer.QueryGemini Join visit NewClient GenerateContent WriteFile w runID in
  (exists name reason,
     Summarizer.returned run =
       Some (Summarizer.ReadFailed (Join "exporter" name)
               (PathError "open" (Join "exporter" name) reason))
     /\ files w !! Join "exporter" name = Some (Unreadable reason))
  /\ Summarizer.request run = None
  /\ Summarizer.written run = None.
Proof.
  intros Hkey Hclient Hbad run. subst run. unfold Summarizer.QueryGemini.
  apply String.eqb_neq in Hkey. rewrite Hkey, Hclient.
  destruct (gather_unreadable w (visit (Summarizer.logs runID)) Summarizer.header [])
    as (name & reason & Hfail & Hfile).
  { destruct Hbad as (l & n & r & Hin & Hr). exists l, n, r.
    split; [now rewrite (visit_all _) | exact Hr]. }
  rewrite Hfail. cbn [Summarizer.returned Summarizer.request Summarizer.written].
  split; [exists name, reason; split; [reflexivity | exact Hfile] |]. split; reflexivity.
Qed.

End SummarizerFacts.

Section SummarizerOutcome.

Variable Join : string -> string -> string.
Variable visit : list (string * string) -> list (string * string).
Variable NewClient : string -> option string.
Variable GenerateContent : string -> string -> string + string.
Variable WriteFile : string -> string -> option string.

(** X16. [QueryGemini] returns no error exactly when it wrote the
    summary.  The file written is [terraform-gemini-summary-<runID>.log]
    under [exporter], and it holds the answer of the model to the
    request that was made, which is not empty; its path is the last line
    printed.  Without an API key nothing is done at all. *)
Theorem summary_written_on_success (w : World) (runID : string) :
  let run := Summarizer.QueryGemini Join visit NewClient GenerateContent WriteFile w runID in
  let outputPath := Join "exporter" ("terraform-gemini-summary-" ++ runID ++ ".log") in
  (Summarizer.returned run = None <-> exists answer,
      Summarizer.written run = Some (outputPath, answer))
  /\ (forall path answer, Summarizer.written run = Some (path, answer) ->
        path = outputPath /\ answer <> ""
        /\ WriteFile path answer = None
        /\ last (Summarizer.stdout run) = Some ("Gemini summary written to " ++ path)
        /\ exists text, Summarizer.request run = Some ("gemini-2.5-flash", text)
                        /\ GenerateContent "gemini-2.5-flash" text = inr answer)
  /\ (Getenv w "GOOGLE_API_KEY" = "" ->
        run = {| Summarizer.stdout := []; Summarizer.request := None;
                 Summarizer.written := None;
                 Summarizer.returned := Some Summarizer.KeyNotSet |}).
Proof.
  intros run outputPath. subst run outputPath. unfold Summarizer.QueryGemini.
  destruct (String.eqb_spec (Getenv w "GOOGLE_API_KEY") "") as [Hkey | Hkey].
  { split; [split; [discriminate | intros [? H]; discriminate] |].
    split; [intros ? ? H; discriminate | reflexivity]. }
  destruct (NewClient _) as [err |].
  { split; [split; [discriminate | intros [? H]; discriminate] |].
    split; [intros ? ? H; discriminate | intros; congruence]. }
  destruct (Summarizer.failed _) as [f |].
  { split; [split; [discriminate | intros [? H]; discriminate] |].
    split; [intros ? ? H; discriminate | intros; congruence]. }
  destruct (GenerateContent _ _) as [err | answer] eqn:Hgen.
  { split; [split; [discriminate | intros [? H]; discriminate] |].
    split; [intros ? ? H; discriminate | intros; congruence]. }
  destruct (Go.len answer =? 0) eqn:Hlen.
  { split; [split; [discriminate | intros [? H]; discriminate] |].
    split; [intros ? ? H; discriminate | intros; congruence]. }
  destruct (WriteFile _ answer) as [err |] eqn:Hwrite.
  { split; [split; [discriminate | intros [? H]; discriminate] |].
    split; [intros ? ? H; discriminate | intros; congruence]. }
  cbn [Summarizer.returned Summarizer.written Summarizer.request Summarizer.stdout].
  split; [split; [intros _; now exists answer | reflexivity] |].
  split; [|intros; congruence].
  intros path ans [= <- <-]. split; [reflexivity |]. split.
  - intros ->. discriminate Hlen.
  - split; [exact Hwrite |]. split; [apply last_snoc |]. eexists. split; [reflexivity | exact Hgen].
Qed.

End SummarizerOutcome.

Section MoreSamples.

(** The plan that creates, updates and replaces: three changes, two with
    [create], one with [update], one with [delete], and drift. *)
Lemma plan_gauges_are_counts_sample :
  PlanExporter.parseTerraformPlan mixedUnmarshalPlanOnly mixedPlanWorld "plan.json"
    PlanExporter.initial =
  ({| PlanExporter.resourcesTotal := ofInt 3;
      PlanExporter.resourcesAdded := ofInt 2;
      PlanExporter.resourcesChanged := ofInt 1;
      PlanExporter.resourcesDestroyed := ofInt 1;
      PlanExporter.executionDuration := ofInt 0;
      PlanExporter.executionSuccess := ofInt 0;
      PlanExporter.driftDetected := ofInt 1 |}, None).
Proof.
  apply (plan_gauges_are_counts mixedUnmarshalPlanOnly mixedPlanWorld "plan.json"
           mixedPlanText PlanExporter.initial
           {| PlanExporter.ResourceChanges := mixedRecords |}).
  - vm_compute; reflexivity.
  - vm_compute; reflexivity.
  - vm_compute; discriminate.
Defined.

Lemma plan_counters_ordered_sample :
  let c := PlanExporter.count mixedRecords in
  0 <= PlanExporter.drift c <= PlanExporter.changed c
  /\ PlanExporter.changed c <= PlanExporter.total c
  /\ 0 <= PlanExporter.added c <= PlanExporter.total c
  /\ 0 <= PlanExporter.destroyed c <= PlanExporter.total c.
Proof.
  apply (plan_counters_ordered mixedRecords). vm_compute; discriminate.
Defined.

Lemma collector_planned_gauges_sample :
  exists run : Collector.Run,
    Collector.collectMetrics mixedUnmarshal sampleParseRFC3339 mixedPlanWorld = Some run
    /\ let published := Collector.gauges (Collector.metrics run) in
       published !! "terraform_resources_total" =
         Some (gauge "terraform_resources_total" "Total planned resource changes" (ofInt 3))
       /\ published !! "terraform_to_add" =
         Some (gauge "terraform_to_add" "Resources planned to be added" (ofInt 2))
       /\ published !! "terraform_to_change" =
         Some (gauge "terraform_to_change" "Resources planned to be changed" (ofInt 1))
       /\ published !! "terraform_to_destroy" =
         Some (gauge "terraform_to_destroy" "Resources planned to be destroyed" (ofInt 1))
       /\ published !! "terraform_to_import" =
         Some (gauge "terraform_to_import" "Resources planned to be imported" (ofInt 0)).
Proof.
  apply (collector_planned_gauges mixedUnmarshal sampleParseRFC3339 mixedPlanWorld
           mixedPlanText).
  - vm_compute; reflexivity.
  - vm_compute; discriminate.
Defined.

Lemma refresh_log_not_configured_sample :
  exists run : Collector.Run,
    Collector.collectMetrics mixedUnmarshal sampleParseRFC3339 mixedPlanWorld = Some run
    /\ Collector.gauges (Collector.metrics run) !! "terraform_drift_detected" =
       Some (driftGauge (ofInt 0))
    /\ Collector.stdout run =
       ["Error reading refresh log: open : no such file or directory"].
Proof.
  apply (refresh_log_not_configured mixedUnmarshal sampleParseRFC3339 mixedPlanWorld).
  - vm_compute; reflexivity.
  - vm_compute; reflexivity.
Defined.

Lemma last_summary_counts_sample :
  exists st : Collector.Stats,
    Collector.parseLogStats twoSummariesWorld "apply.log" = Some st
    /\ Collector.added st = 2 /\ Collector.changed st = 1.
Proof.
  apply (last_summary_counts twoSummariesWorld "apply.log" twoSummariesText
           [summaryOf (decimalOf 9) (decimalOf 9) (decimalOf 9);
            "aws_instance.web: Modifying... [id=i-0abc]"]
           [] 2 1 5).
  - vm_compute; discriminate.
  - vm_compute; discriminate.
  - vm_compute; reflexivity.
  - vm_compute; reflexivity.
  - constructor.
Defined.

Lemma colon_before_summary_sample :
  Collector.lineStep Collector.noStats "12:00:01 Apply complete! Resources: 3 added"
  = Some Collector.noStats.
Proof.
  apply (colon_before_summary Collector.noStats "12" "00"
           "01 Apply complete! Resources: 3 added"); reflexivity.
Defined.

Lemma longLine_length : Go.MaxScanTokenSize <= Go.len longLine.
Proof. unfold Z.le. vm_compute. discriminate. Qed.

Lemma longLine_one_line : hasByte (ascii_of_nat 10) longLine = false.
Proof. vm_compute. reflexivity. Qed.

Lemma oversized_line_is_success_sample :
  Collector.isTerraformRunSuccessful hiddenErrorWorld "apply.log" = true.
Proof.
  apply (oversized_line_is_success hiddenErrorWorld "apply.log" hiddenErrorText
           longLine ["Plan: 1 to add."] ["Error: boom"]).
  - reflexivity.
  - unfold hiddenErrorText, Go.newline.
    change ("Plan: 1 to add." ++ String (ascii_of_nat 10) "" ++ longLine
            ++ String (ascii_of_nat 10) "" ++ "Error: boom")
      with ("Plan: 1 to add." ++ String (ascii_of_nat 10)
              (longLine ++ String (ascii_of_nat 10) "Error: boom")).
    rewrite Split_byte_app by reflexivity.
    rewrite Split_byte_app by exact longLine_one_line.
    rewrite Split_byte_absent by reflexivity. reflexivity.
  - constructor; [vm_compute; reflexivity | constructor].
  - constructor; [|constructor].
    intros [H | H]; apply Contains_spec in H; vm_compute in H; discriminate.
  - exact longLine_length.
Defined.

Lemma sampleVisit_all (entries : list (string * string)) :
  Permutation (sampleVisit entries) entries.
Proof. symmetry. apply Permutation_rev. Qed.


Lemma unreadable_log_aborts_sample :
  let run := Summarizer.QueryGemini sampleJoin sampleVisit sampleNewClient sampleGenerate
               sampleWriteFile lockedLogWorld "42" in
  (exists name reason,
     Summarizer.returned run =
       Some (Summarizer.ReadFailed (sampleJoin "exporter" name)
               (PathError "open" (sampleJoin "exporter" name) reason))
     /\ files lockedLogWorld !! sampleJoin "exporter" name = Some (Unreadable reason))
  /\ Summarizer.request run = None
  /\ Summarizer.written run = None.
Proof.
  apply (unreadable_log_aborts sampleJoin sampleVisit sampleNewClient sampleGenerate
           sampleWriteFile sampleVisit_all lockedLogWorld "42").
  - vm_compute; discriminate.
  - reflexivity.
  - exists "plan", "terraform-plan-42.log", "permission denied". split.
    + right. left.
    + vm_compute; reflexivity.
Defined.

End MoreSamples.

Section HiddenError.

Lemma hiddenErrorText_pieces :
  Go.Split hiddenErrorText Go.newline = ["Plan: 1 to add."; longLine; "Error: boom"].
Proof.
  unfold hiddenErrorText, Go.newline.
  change ("Plan: 1 to add." ++ String (ascii_of_nat 10) "" ++ longLine
          ++ String (ascii_of_nat 10) "" ++ "Error: boom")
    with ("Plan: 1 to add." ++ String (ascii_of_nat 10)
            (longLine ++ String (ascii_of_nat 10) "Error: boom")).
  rewrite Split_byte_app by reflexivity.
  rewrite Split_byte_app by exact longLine_one_line.
  rewrite Split_byte_absent by reflexivity. reflexivity.
Qed.

Lemma hiddenErrorText_scanned : Go.scanLines hiddenErrorText = ["Plan: 1 to add."].
Proof.
  unfold Go.scanLines. rewrite hiddenErrorText_pieces.
  apply (scanTokens_oversized ["Plan: 1 to add."] ["Error: boom"] longLine).
  - constructor; [vm_compute; reflexivity | constructor].
  - exact longLine_length.
Qed.

(** C8 fails on the code.  The apply log of this run has three lines:
    ["Plan: 1 to add."], a line of 65536 bytes, and ["Error: boom"].  Its
    last line carries ["Error:"], and the file opens.  The scanner
    delivers the first line and stops at the second, the loop ends
    without having seen the third, and [isTerraformRunSuccessful] answers
    true: the run publishes [terraform_result] as 1.  Without the long
    line the same log is classified as a failure. *)
Theorem marked_line_behind_long_line :
  Open hiddenErrorWorld "apply.log" = inr hiddenErrorText
  /\ Go.Split hiddenErrorText Go.newline = ["Plan: 1 to add."; longLine; "Error: boom"]
  /\ Go.len longLine = 65536
  /\ errorLine "Error: boom"
  /\ Go.scanLines hiddenErrorText = ["Plan: 1 to add."]
  /\ Collector.isTerraformRunSuccessful hiddenErrorWorld "apply.log" = true
  /\ (run ← Collector.collectMetrics sampleUnmarshal sampleParseRFC3339 hiddenErrorWorld;
      Collector.gauges (Collector.metrics run) !! "terraform_result")
     = Some (gauge "terraform_result" "1=success, 0=failure" (ofInt 1))
  /\ Collector.isTerraformRunSuccessful shownErrorWorld "apply.log" = false.
Proof.
  assert (Hopen : Open hiddenErrorWorld "apply.log" = inr hiddenErrorText)
    by reflexivity.
  assert (Hok : Collector.isTerraformRunSuccessful hiddenErrorWorld "apply.log" = true).
  { unfold Collector.isTerraformRunSuccessful.
    rewrite Hopen, hiddenErrorText_scanned. reflexivity. }
  split; [exact Hopen |].
  split; [exact hiddenErrorText_pieces |].
  split; [vm_compute; reflexivity |].
  split; [left; exists "", " boom"; reflexivity |].
  split; [exact hiddenErrorText_scanned |].
  split; [exact Hok |].
  split; [vm_compute; reflexivity | vm_compute; reflexivity].
Qed.

End HiddenError.
